(** * WhatsApp spam filter: the classification pipeline of [src/index.js]

    A shallow embedding of the detection code ([detectSpamGroupInvite],
    [isSpamMessage], [isBotAdmin], [handleMessage]) together with the
    properties the specification states about it.

    Conventions.
    - A JavaScript string is the list of its UTF-16 code units ([jsstring]).
    - A JavaScript value that can come out of [JSON.parse] or be stored in a
      verdict is a [jsval]; numbers are extended rationals ([jsnum]), a
      superset of the finite doubles together with the infinities and NaN, on
      which comparison with [70] is the comparison of the values.
    - Converting an object or an array to a primitive can throw
      ([throwsToPrimitive]); the comparison of line 312 and the log line of
      line 375 are modelled with that exception.
    - The builtins whose full definition is the language's, not the
      repository's ([String.prototype.toLowerCase], [JSON.parse], the string
      to number conversion), are the methods of the class [JSHost]; general
      theorems hold for every host, evaluated examples use [refHost]. *)

From Stdlib Require Import Ascii String DecimalString.
From Stdlib Require Import List Bool Arith NArith ZArith QArith Lia.
Import ListNotations.

Set Warnings "-register-all".
Close Scope Q_scope.
Open Scope nat_scope.

(** ** Strings *)

Definition jsstring := list N.

(** The code units of an ASCII literal of the source. *)
Definition lit (s : string) : jsstring :=
  map N_of_ascii (list_ascii_of_string s).

Fixpoint jsstring_eqb (a b : jsstring) : bool :=
  match a, b with
  | [], [] => true
  | x :: a', y :: b' => N.eqb x y && jsstring_eqb a' b'
  | _, _ => false
  end.

(** [s.startsWith(p)]. *)
Fixpoint startsWith (p s : jsstring) : bool :=
  match p, s with
  | [], _ => true
  | _ :: _, [] => false
  | x :: p', y :: s' => N.eqb x y && startsWith p' s'
  end.

(** [s.includes(t)]: [t] occurs in [s] as a contiguous run of code units. *)
Fixpoint includes (s t : jsstring) : bool :=
  startsWith t s ||
  match s with
  | [] => false
  | _ :: s' => includes s' t
  end.

(** [parts.join(sep)] on an array of strings. *)
Fixpoint join (sep : jsstring) (parts : list jsstring) : jsstring :=
  match parts with
  | [] => []
  | [p] => p
  | p :: rest => p ++ sep ++ join sep rest
  end.

(** [arr.slice(0, n)]. *)
Definition slice0 (n : nat) (arr : list jsstring) : list jsstring := firstn n arr.

(** WhiteSpace and LineTerminator code units, the ones [trim] strips. *)
Definition isWhiteSpace (c : N) : bool :=
  existsb (N.eqb c)
    [9; 10; 11; 12; 13; 32; 160; 5760; 8232; 8233; 8239; 8287; 12288; 65279]%N
  || (N.leb 8192 c && N.leb c 8202).

(** [s.trim() === ""]. *)
Definition trim_is_empty (s : jsstring) : bool := forallb isWhiteSpace s.

(** ** Values *)

Inductive jsnum : Type :=
| Fin (q : Q)
| PosInf
| NegInf
| NaN.

Inductive jsval : Type :=
| JUndefined
| JNull
| JBool (b : bool)
| JNum (n : jsnum)
| JStr (s : jsstring)
| JArr (elems : list jsval)
| JObj (props : list (jsstring * jsval)).

Definition num (z : Z) : jsval := JNum (Fin (inject_Z z)).
Definition str (s : string) : jsval := JStr (lit s).

(** ToBoolean. *)
Definition truthy (v : jsval) : bool :=
  match v with
  | JUndefined | JNull => false
  | JBool b => b
  | JNum (Fin q) => negb (Z.eqb (Qnum q) 0)
  | JNum NaN => false
  | JNum _ => true
  | JStr s => match s with [] => false | _ => true end
  | JArr _ | JObj _ => true
  end.

(** [a && b]. *)
Definition js_and (a b : jsval) : jsval := if truthy a then b else a.

(** Whether an object parsed from JSON has an own member named [key]. *)
Definition hasOwn (key : jsstring) (props : list (jsstring * jsval)) : bool :=
  existsb (fun kv => jsstring_eqb (fst kv) key) props.

(** Whether converting [v] to a primitive (ToPrimitive, with either hint)
    throws a TypeError.  A value parsed from JSON holds no function: an
    object with an own [toString] member has no callable [toString], and
    the inherited [valueOf] returns the object itself, so no method yields a
    primitive; without that member the inherited [toString] answers.  An
    array is joined, which converts each of its elements other than [null]
    to a string.  A primitive is its own conversion. *)
Fixpoint throwsToPrimitive (v : jsval) : bool :=
  match v with
  | JObj props => hasOwn (lit "toString") props
  | JArr elems => existsb throwsToPrimitive elems
  | _ => false
  end.

(** The verdict object [{ isSpam, confidence, reason }]. *)
Record Verdict : Type := mkVerdict {
  isSpam : jsval;
  confidence : jsval;
  reason : jsval
}.

(** ** The host builtins *)

Class JSHost : Type := {
  (** [String.prototype.toLowerCase] *)
  toLowerCase : jsstring -> jsstring;
  (** [JSON.parse]; [None] when it throws *)
  JSON_parse : jsstring -> option jsval;
  (** ToNumber on a string *)
  StringToNumber : jsstring -> jsnum;
  (** ToPrimitive on an array or a plain object whose conversion does not
      throw: its string *)
  ObjectToString : jsval -> jsstring
}.

(** ToNumber; [None] when the conversion of an object throws. *)
Definition ToNumber `{JSHost} (v : jsval) : option jsnum :=
  match v with
  | JUndefined => Some NaN
  | JNull => Some (Fin 0)
  | JBool true => Some (Fin 1)
  | JBool false => Some (Fin 0)
  | JNum n => Some n
  | JStr s => Some (StringToNumber s)
  | JArr _ | JObj _ =>
      if throwsToPrimitive v then None
      else Some (StringToNumber (ObjectToString v))
  end.

(** [n >= 70] on numbers: false on NaN. *)
Definition num_ge (n : jsnum) (k : Z) : bool :=
  match n with
  | Fin q => Qle_bool (inject_Z k) q
  | PosInf => true
  | NegInf | NaN => false
  end.

(** [v >= k] for a number literal [k]; [None] when it throws. *)
Definition js_ge `{JSHost} (v : jsval) (k : Z) : option bool :=
  option_map (fun n => num_ge n k) (ToNumber v).

(** ** SPAM_PATTERNS (lines 96-139) *)

Module SPAM_PATTERNS.

Definition isAlnum (c : N) : bool :=
  (N.leb 48 c && N.leb c 57) || (N.leb 65 c && N.leb c 90)
  || (N.leb 97 c && N.leb c 122).

(** Canonicalisation of the [i] flag on the code units an ASCII pattern
    character can match. *)
Definition foldCase (c : N) : N :=
  if N.leb 65 c && N.leb c 90 then (c + 32)%N else c.

Fixpoint startsWith_ci (p s : jsstring) : option jsstring :=
  match p, s with
  | [], _ => Some s
  | _ :: _, [] => None
  | x :: p', y :: s' =>
      if N.eqb (foldCase x) (foldCase y) then startsWith_ci p' s' else None
  end.

Fixpoint countAlnum (s : jsstring) : nat :=
  match s with
  | c :: s' => if isAlnum c then S (countAlnum s') else 0
  | [] => 0
  end.

(** A match of [chat\.whatsapp\.com\/[A-Za-z0-9]{20,}] anchored at the
    head of [s]: its length. *)
Definition matchHere (s : jsstring) : option nat :=
  match startsWith_ci (lit "chat.whatsapp.com/") s with
  | Some rest =>
      let n := countAlnum rest in
      if 20 <=? n then Some (18 + n) else None
  | None => None
  end.

(** The leftmost match in [s], whose head is at index [i]: its end index. *)
Fixpoint search (s : jsstring) (i : nat) : option nat :=
  match matchHere s with
  | Some len => Some (i + len)
  | None =>
      match s with
      | [] => None
      | _ :: s' => search s' (S i)
      end
  end.

(** [groupInviteRegex.test(s)] for the global ([g]) regex object whose
    [lastIndex] property holds [lastIndex]: the result and the new
    [lastIndex]. *)
Definition groupInviteRegex_test (lastIndex : nat) (s : jsstring) : bool * nat :=
  if length s <? lastIndex then (false, 0)
  else match search (skipn lastIndex s) lastIndex with
       | Some e => (true, e)
       | None => (false, 0)
       end.

Definition spamGroupKeywords : list jsstring :=
  map lit
    [ (* Trading/Forex *)
      "trading"; "forex"; "fx signal"; "trade signal"; "pip"; "lot size";
      "forex vip"; "trading vip"; "profit signal"; "free signal";
      (* Crypto *)
      "crypto"; "bitcoin"; "btc"; "eth"; "binance"; "coinbase"; "nft";
      "token"; "airdrop"; "pump"; "moonshot"; "100x"; "1000x";
      "crypto vip"; "bitcoin signal"; "crypto signal";
      (* Investment scams *)
      "investment"; "invest now"; "guaranteed profit"; "daily profit";
      "passive income"; "financial freedom"; "get rich"; "make money";
      "earn money"; "income opportunity"; "profit guaranteed";
      (* Training/Course scams *)
      "training"; "course"; "masterclass"; "webinar"; "free class";
      "learn trading"; "trading course"; "forex course"; "crypto course";
      "mentorship"; "coaching"; "academy";
      (* MLM/Pyramid *)
      "mlm"; "network marketing"; "referral bonus"; "join my team";
      "business opportunity"; "work from home"; "be your own boss";
      (* Gambling *)
      "betting"; "casino"; "gambling"; "slot"; "jackpot"; "lucky draw";
      (* Adult/Dating *)
      "dating"; "singles"; "hookup"; "adult"; "18+" ]%string.

Definition highConfidenceSpam : list jsstring :=
  map lit
    [ "join my trading group";
      "join my crypto group";
      "join my forex group";
      "vip signal group";
      "free trading signals";
      "guaranteed returns";
      "double your money";
      "100% profit";
      "join and earn";
      "click link to join" ]%string.

End SPAM_PATTERNS.

(** ** detectSpamGroupInvite (lines 145-201) *)

(** Lines 149-151: the test of the shared regex object followed by the reset
    of its [lastIndex]. *)
Definition testGroupInvite (lastIndex : nat) (message : jsstring) : bool * nat :=
  let '(hasGroupInvite, _) := SPAM_PATTERNS.groupInviteRegex_test lastIndex message in
  (hasGroupInvite, 0).

(** The double quote of the reason template. *)
Definition dquote : jsstring := [34%N].

(** The keywords of the vocabulary found in the lowercased message
    (lines 166-168 and 188-190). *)
Definition matchedKeywords `{JSHost} (lowerMessage : jsstring) : list jsstring :=
  filter (fun keyword => includes lowerMessage (toLowerCase keyword))
         SPAM_PATTERNS.spamGroupKeywords.

(** [lastIndex] is [0] when the program starts and [testGroupInvite] leaves
    it at [0], so every call tests from index [0]. *)
Definition detectSpamGroupInvite `{JSHost} (message : jsstring) : Verdict :=
  let lowerMessage := toLowerCase message in
  let hasGroupInvite := fst (testGroupInvite 0 message) in
  match find (fun phrase => includes lowerMessage phrase)
             SPAM_PATTERNS.highConfidenceSpam with
  | Some phrase =>
      mkVerdict (JBool true) (num 95)
        (JStr (lit "High-confidence spam phrase: " ++ dquote ++ phrase ++ dquote))
  | None =>
      let matched := matchedKeywords lowerMessage in
      if hasGroupInvite && (2 <=? length matched) then
        mkVerdict (JBool true) (num 90)
          (JStr (lit "Group invite with spam keywords: "
                 ++ join (lit ", ") (slice0 3 matched)))
      else if hasGroupInvite && (length matched =? 1) then
        mkVerdict (JBool true) (num 75)
          (JStr (lit "Group invite with suspicious keyword: "
                 ++ nth 0 matched []))
      else if 3 <=? length matched then
        mkVerdict (JBool true) (num 80)
          (JStr (lit "Multiple spam indicators: "
                 ++ join (lit ", ") (slice0 3 matched)))
      else
        mkVerdict (JBool false) (num 0) (str "No spam patterns detected")
  end.

(** ** A reference host for evaluation *)

Definition asciiLower (c : N) : N :=
  if N.leb 65 c && N.leb c 90 then (c + 32)%N else c.

Definition refToLowerCase (s : jsstring) : jsstring := map asciiLower s.

(** The code units of a literal in which each apostrophe stands for a double
    quote. *)
Definition litq (s : string) : jsstring :=
  map (fun c => if N.eqb c 39 then 34%N else c) (lit s).

(** *** [JSON.parse]

    A recursive-descent reader of JSON texts over code units.  Objects keep
    their members in source order (a later duplicate key shadows an earlier
    one, see [getField]).  A number literal denotes its exact rational value:
    that is the value of the double the builtin returns whenever the double
    holds it exactly (every integer below 2^53); rounding is not modelled. *)

Module RefJSON.

#[local] Open Scope N_scope.

Definition isJsonWs (c : N) : bool :=
  N.eqb c 32 || N.eqb c 9 || N.eqb c 10 || N.eqb c 13.

Fixpoint skip_ws (s : jsstring) : jsstring :=
  match s with
  | c :: s' => if isJsonWs c then skip_ws s' else s
  | [] => []
  end.

Definition digitVal (c : N) : option Z :=
  if N.leb 48 c && N.leb c 57 then Some (Z.of_N c - 48)%Z else None.

Definition hexVal (c : N) : option N :=
  if N.leb 48 c && N.leb c 57 then Some (c - 48)%N
  else if N.leb 65 c && N.leb c 70 then Some (c - 55)%N
  else if N.leb 97 c && N.leb c 102 then Some (c - 87)%N
  else None.

(** The digits at the head of [s]: their value continuing [acc], how many
    they are, and the rest. *)
Fixpoint digits (s : jsstring) (acc : Z) (n : nat) : Z * nat * jsstring :=
  match s with
  | c :: s' =>
      match digitVal c with
      | Some d => digits s' (10 * acc + d)%Z (S n)
      | None => (acc, n, s)
      end
  | [] => (acc, n, [])
  end.

(** [mant * 10^e] as a rational. *)
Definition scale10 (mant e : Z) : Q :=
  if (0 <=? e)%Z then inject_Z (mant * 10 ^ e)
  else Qmake mant (Z.to_pos (10 ^ (- e))).

(** The fraction and exponent parts after the integer part [ip]. *)
Definition frac_exp (ip : Z) (s : jsstring) : option (Q * jsstring) :=
  let '(mant, fl, s1) :=
    match s with
    | 46 :: r => let '(m, n, r') := digits r ip 0 in
                 (m, n, if (n =? 0)%nat then s else r')
    | _ => (ip, O, s)
    end in
  match s, fl with
  | 46 :: _, O => None
  | _, _ =>
      match s1 with
      | c :: r =>
          if N.eqb c 101 || N.eqb c 69 then
            let '(neg, r1) :=
              match r with
              | 45 :: r' => (true, r')
              | 43 :: r' => (false, r')
              | _ => (false, r)
              end in
            let '(e, n, r2) := digits r1 0%Z 0 in
            if (n =? 0)%nat then None
            else Some (scale10 mant ((if neg then - e else e) - Z.of_nat fl), r2)
          else Some (scale10 mant (- Z.of_nat fl), s1)
      | [] => Some (scale10 mant (- Z.of_nat fl), s1)
      end
  end.

(** A JSON number: an optional minus sign, an integer part without a
    leading zero (or a lone zero), an optional fraction, an optional
    exponent. *)
Definition parse_number (s : jsstring) : option (jsnum * jsstring) :=
  let '(neg, s0) := match s with 45 :: r => (true, r) | _ => (false, s) end in
  let intpart :=
    match s0 with
    | 48 :: r => Some (0%Z, r)
    | _ :: _ =>
        let '(v, n, r) := digits s0 0%Z 0 in
        if (n =? 0)%nat then None else Some (v, r)
    | [] => None
    end in
  match intpart with
  | Some (ip, r) =>
      match frac_exp ip r with
      | Some (q, r') => Some (Fin (if neg then Qopp q else q), r')
      | None => None
      end
  | None => None
  end.

(** The characters of a string literal after its opening quote. *)
Fixpoint parse_string (s : jsstring) (acc : jsstring) : option (jsstring * jsstring) :=
  match s with
  | [] => None
  | 34 :: r => Some (rev acc, r)
  | 92 :: 117 :: a :: b :: c :: d :: r =>
      match hexVal a, hexVal b, hexVal c, hexVal d with
      | Some a, Some b, Some c, Some d =>
          parse_string r ((4096 * a + 256 * b + 16 * c + d) :: acc)
      | _, _, _, _ => None
      end
  | 92 :: e :: r =>
      match
        (if N.eqb e 34 then Some 34 else if N.eqb e 92 then Some 92
         else if N.eqb e 47 then Some 47 else if N.eqb e 98 then Some 8
         else if N.eqb e 102 then Some 12 else if N.eqb e 110 then Some 10
         else if N.eqb e 114 then Some 13 else if N.eqb e 116 then Some 9
         else None)
      with
      | Some c => parse_string r (c :: acc)
      | None => None
      end
  | c :: r => if N.ltb c 32 then None else parse_string r (c :: acc)
  end.

Fixpoint parse_value (fuel : nat) (s : jsstring) : option (jsval * jsstring) :=
  match fuel with
  | O => None
  | S f =>
      match skip_ws s with
      | 123 :: r =>
          match skip_ws r with
          | 125 :: r' => Some (JObj [], r')
          | r' => parse_members f r' []
          end
      | 91 :: r =>
          match skip_ws r with
          | 93 :: r' => Some (JArr [], r')
          | r' => parse_elements f r' []
          end
      | 34 :: r =>
          match parse_string r [] with
          | Some (k, r') => Some (JStr k, r')
          | None => None
          end
      | 116 :: 114 :: 117 :: 101 :: r => Some (JBool true, r)
      | 102 :: 97 :: 108 :: 115 :: 101 :: r => Some (JBool false, r)
      | 110 :: 117 :: 108 :: 108 :: r => Some (JNull, r)
      | s' =>
          match parse_number s' with
          | Some (n, r) => Some (JNum n, r)
          | None => None
          end
      end
  end
with parse_members (fuel : nat) (s : jsstring) (acc : list (jsstring * jsval))
  : option (jsval * jsstring) :=
  match fuel with
  | O => None
  | S f =>
      match skip_ws s with
      | 34 :: r =>
          match parse_string r [] with
          | Some (k, r1) =>
              match skip_ws r1 with
              | 58 :: r2 =>
                  match parse_value f r2 with
                  | Some (v, r3) =>
                      match skip_ws r3 with
                      | 44 :: r4 => parse_members f r4 ((k, v) :: acc)
                      | 125 :: r4 => Some (JObj (rev ((k, v) :: acc)), r4)
                      | _ => None
                      end
                  | None => None
                  end
              | _ => None
              end
          | None => None
          end
      | _ => None
      end
  end
with parse_elements (fuel : nat) (s : jsstring) (acc : list jsval)
  : option (jsval * jsstring) :=
  match fuel with
  | O => None
  | S f =>
      match parse_value f s with
      | Some (v, r) =>
          match skip_ws r with
          | 44 :: r' => parse_elements f r' (v :: acc)
          | 93 :: r' => Some (JArr (rev (v :: acc)), r')
          | _ => None
          end
      | None => None
      end
  end.

(** [JSON.parse(text)]: one value, then only white space. *)
Definition parse (text : jsstring) : option jsval :=
  match parse_value (2 * length text + 2)%nat text with
  | Some (v, r) => match skip_ws r with [] => Some v | _ => None end
  | None => None
  end.

End RefJSON.

(** *** The number conversions of the reference host

    [refStringToNumber] reads an optionally signed decimal literal between
    white space (the empty string is [0]); the other literal forms of the
    language (hexadecimal, binary, octal, [Infinity], a bare leading or
    trailing dot) are outside it.  [refToString] prints integers; a number
    that is not an integer is outside it. *)

Fixpoint dropWs (s : jsstring) : jsstring :=
  match s with
  | c :: s' => if isWhiteSpace c then dropWs s' else s
  | [] => []
  end.

Definition trim (s : jsstring) : jsstring := rev (dropWs (rev (dropWs s))).

Definition refStringToNumber (s : jsstring) : jsnum :=
  match trim s with
  | [] => Fin 0
  | c :: r =>
      let '(neg, body) :=
        if N.eqb c 45 then (true, r) else if N.eqb c 43 then (false, r)
        else (false, c :: r) in
      let '(ip, n, rest) := RefJSON.digits body 0%Z 0 in
      if n =? 0 then NaN
      else match RefJSON.frac_exp ip rest with
           | Some (q, []) => Fin (if neg then Qopp q else q)
           | _ => NaN
           end
  end.

Definition refNumberToString (n : jsnum) : jsstring :=
  match n with
  | Fin q =>
      if Pos.eqb (Qden q) 1 then lit (NilZero.string_of_int (Z.to_int (Qnum q)))
      else lit "NaN"
  | PosInf => lit "Infinity"
  | NegInf => lit "-Infinity"
  | NaN => lit "NaN"
  end.

Fixpoint refToString (v : jsval) : jsstring :=
  match v with
  | JUndefined => lit "undefined"
  | JNull => lit "null"
  | JBool true => lit "true"
  | JBool false => lit "false"
  | JNum n => refNumberToString n
  | JStr s => s
  | JArr elems =>
      join (lit ",")
        (map (fun e => match e with
                       | JUndefined | JNull => []
                       | _ => refToString e
                       end) elems)
  | JObj _ => lit "[object Object]"
  end.

Definition refHost : JSHost := {|
  toLowerCase := refToLowerCase;
  JSON_parse := RefJSON.parse;
  StringToNumber := refStringToNumber;
  ObjectToString := refToString
|}.

(** ** Configuration and collaborators *)

Inductive Provider : Type := ProviderAnthropic | ProviderGemini.

(** The fields of [CONFIG] (lines 27-47) the pipeline reads. *)
Record Config : Type := mkConfig {
  monitoredGroups : list jsstring;
  aiProvider : option Provider;
  dryRun : bool;
  customSpamKeywords : list jsstring;
  useAI : bool
}.

(** What a provider call comes back with: the trimmed text of the reply, or
    an exception. *)
Inductive Reply : Type :=
| Throws
| Text (content : jsstring).

(** [detectWithAnthropic] / [detectWithGemini] against a live client, as a
    function of [(message, senderName, groupName)]. *)
Definition Client : Type := jsstring -> jsstring -> jsstring -> Reply.

(** The module variables [anthropic] and [gemini]: [None] is [null]. *)
Record Clients : Type := mkClients {
  anthropic : option Client;
  gemini : option Client
}.

Definition isNull {A : Type} (o : option A) : bool :=
  match o with None => true | Some _ => false end.

(** ** The rate limit (lines 86-93 and 284-288) *)

Definition MAX_CHECKS_PER_MINUTE : nat := 30.

(** Lines 284-288: whether the call is admitted, and the counter after it. *)
Definition tryAdmit (checksThisMinute : nat) : bool * nat :=
  if MAX_CHECKS_PER_MINUTE <=? checksThisMinute then (false, checksThisMinute)
  else (true, S checksThisMinute).

(** Lines 91-93: the callback of the interval timer. *)
Definition resetWindow (checksThisMinute : nat) : nat := 0.

(** What happens to the counter: a call reaching the gate, or a timer tick. *)
Inductive GateEvent : Type := Call | Tick.

Definition gateStep (checksThisMinute : nat) (e : GateEvent) : option bool * nat :=
  match e with
  | Call => let '(ok, c) := tryAdmit checksThisMinute in (Some ok, c)
  | Tick => (None, resetWindow checksThisMinute)
  end.

(** The answers to a sequence of events and the final counter. *)
Fixpoint gateRun (checksThisMinute : nat) (es : list GateEvent) : list (option bool) * nat :=
  match es with
  | [] => ([], checksThisMinute)
  | e :: es' =>
      let '(r, c) := gateStep checksThisMinute e in
      let '(rs, c') := gateRun c es' in
      (r :: rs, c')
  end.

(** ** isSpamMessage (lines 261-324) *)

(** [content.match(/\{[\s\S]*\}/)]: from the first opening brace to the last
    closing brace after it. *)
Fixpoint dropUntil (c : N) (s : jsstring) : jsstring :=
  match s with
  | x :: s' => if N.eqb x c then s else dropUntil c s'
  | [] => []
  end.

Definition jsonMatch (content : jsstring) : option jsstring :=
  match rev (dropUntil 125 (rev (dropUntil 123 content))) with
  | [] => None
  | m => Some m
  end.

(** [obj[key]] on a parsed object: the last member with that key. *)
Fixpoint lookup (key : jsstring) (props : list (jsstring * jsval)) : option jsval :=
  match props with
  | [] => None
  | (k, v) :: rest =>
      match lookup key rest with
      | Some v' => Some v'
      | None => if jsstring_eqb k key then Some v else None
      end
  end.

(** [result.key] for a key that no builtin prototype defines: [None] is the
    TypeError of reading a property of [null] or [undefined]. *)
Definition getField (result : jsval) (key : jsstring) : option jsval :=
  match result with
  | JUndefined | JNull => None
  | JObj props =>
      match lookup key props with
      | Some v => Some v
      | None => Some JUndefined
      end
  | _ => Some JUndefined
  end.

(** Lines 311-315: the verdict built from the parsed reply; [None] when
    building it throws.  The comparison of line 312 is evaluated only when
    [result.isSpam] is truthy, and throws when [result.confidence] has no
    primitive value. *)
Definition gateParsed `{JSHost} (result : jsval) : option Verdict :=
  match getField result (lit "isSpam"), getField result (lit "confidence"),
        getField result (lit "reason") with
  | Some rIsSpam, Some rConfidence, Some rReason =>
      if truthy rIsSpam then
        match js_ge rConfidence 70%Z with
        | Some b =>
            Some {| isSpam := js_and rIsSpam (JBool b);
                    reason := rReason;
                    confidence := rConfidence |}
        | None => None
        end
      else
        Some {| isSpam := rIsSpam;
                reason := rReason;
                confidence := rConfidence |}
  | _, _, _ => None
  end.

Definition parseError : Verdict :=
  mkVerdict (JBool false) (num 0) (str "Parse error").

Definition apiError : Verdict :=
  mkVerdict (JBool false) (num 0) (str "API error").

Definition rateLimited : Verdict :=
  mkVerdict (JBool false) (num 0) (str "Rate limited - using rule-based only").

(** Lines 302-319, on the text a provider returned. *)
Definition parseReply `{JSHost} (content : jsstring) : Verdict :=
  match jsonMatch content with
  | None => parseError
  | Some text =>
      match JSON_parse text with
      | Some result =>
          match gateParsed result with
          | Some v => v
          | None => parseError
          end
      | None => parseError
      end
  end.

(** Lines 293-300: the client the configured provider selects. *)
Definition selectClient (CONFIG : Config) (clients : Clients) : option Client :=
  match aiProvider CONFIG, anthropic clients, gemini clients with
  | Some ProviderAnthropic, Some c, _ => Some c
  | Some ProviderGemini, _, Some c => Some c
  | _, _, _ => None
  end.

(** Lines 290-323. *)
Definition aiDetect `{JSHost} (CONFIG : Config) (clients : Clients)
    (message senderName groupName : jsstring) (ruleBasedResult : Verdict) : Verdict :=
  match selectClient CONFIG clients with
  | None => ruleBasedResult
  | Some call =>
      match call message senderName groupName with
      | Throws => apiError
      | Text content => parseReply content
      end
  end.

(** The verdict and the value of [checksThisMinute] after the call. *)
Definition isSpamMessage `{JSHost} (CONFIG : Config) (clients : Clients)
    (message senderName groupName : jsstring) (checksThisMinute : nat)
    : Verdict * nat :=
  let lowerMessage := toLowerCase message in
  match find (fun keyword => includes lowerMessage (toLowerCase keyword))
             (customSpamKeywords CONFIG) with
  | Some keyword =>
      (mkVerdict (JBool true) (num 100)
         (JStr (lit "Contains blocked keyword: " ++ keyword)),
       checksThisMinute)
  | None =>
      let ruleBasedResult := detectSpamGroupInvite message in
      if truthy (isSpam ruleBasedResult) then (ruleBasedResult, checksThisMinute)
      else if negb (useAI CONFIG)
              || (isNull (anthropic clients) && isNull (gemini clients))
      then (ruleBasedResult, checksThisMinute)
      else
        match tryAdmit checksThisMinute with
        | (false, c) => (rateLimited, c)
        | (true, c) =>
            (aiDetect CONFIG clients message senderName groupName ruleBasedResult, c)
        end
  end.

(** ** isBotAdmin (lines 329-340) and handleMessage (lines 345-404) *)

Record Participant : Type := mkParticipant {
  participantId : jsstring;
  isAdmin : bool;
  isSuperAdmin : bool
}.

(** A chat: [participants] is [None] when reading the list fails. *)
Record Chat : Type := mkChat {
  isGroup : bool;
  chatId : jsstring;
  chatName : jsstring;
  participants : option (list Participant)
}.

(** [botNumber] is [client.info.wid._serialized], [None] when reading it
    throws; any exception makes the answer [false]. *)
Definition isBotAdmin (botNumber : option jsstring) (chat : Chat) : bool :=
  match participants chat, botNumber with
  | Some ps, Some bot =>
      match find (fun p => jsstring_eqb (participantId p) bot) ps with
      | Some botParticipant =>
          isAdmin botParticipant || isSuperAdmin botParticipant || false
      | None => false
      end
  | _, _ => false
  end.

(** An incoming message: [getChat] is [None] when the call throws, a string
    field is [None] when it is [undefined]. *)
Record Message : Type := mkMessage {
  getChat : option Chat;
  fromMe : bool;
  body : option jsstring;
  author : option jsstring;
  from : option jsstring;
  notifyName : option jsstring
}.

(** [a || b] on strings that may be [undefined]. *)
Definition or_else (a b : option jsstring) : option jsstring :=
  match a with
  | Some (_ :: _) => a
  | _ => b
  end.

(** [s.split("@")[0]]. *)
Fixpoint beforeAt (s : jsstring) : jsstring :=
  match s with
  | c :: s' => if N.eqb c 64 then [] else c :: beforeAt s'
  | [] => []
  end.

(** Lines 366-367. *)
Definition senderNameOf (message : Message) : jsstring :=
  let senderId := or_else (author message) (from message) in
  match or_else (notifyName message)
                (or_else (option_map beforeAt senderId) (Some (lit "Unknown"))) with
  | Some n => n
  | None => lit "Unknown"
  end.

(** What the handler asks of the messaging client. *)
Inductive Action : Type :=
| QueryAdmin
| DeleteForEveryone.

(** The pre-filters of lines 348-363: the chat and the text to classify. *)
Definition accepted (CONFIG : Config) (message : Message) : option (Chat * jsstring) :=
  match getChat message with
  | None => None
  | Some chat =>
      if negb (isGroup chat) then None
      else if (0 <? length (monitoredGroups CONFIG))
              && negb (existsb (jsstring_eqb (chatId chat)) (monitoredGroups CONFIG))
      then None
      else if fromMe message then None
      else
        match body message with
        | None | Some [] => None
        | Some text => if trim_is_empty text then None else Some (chat, text)
        end
  end.

(** Line 375: whether building the log line of a spam verdict throws.  The
    template converts the confidence to a string when it is truthy, then the
    reason. *)
Definition spamLogThrows (spamCheck : Verdict) : bool :=
  (truthy (confidence spamCheck) && throwsToPrimitive (confidence spamCheck))
  || throwsToPrimitive (reason spamCheck).

(** The requests made while handling one message, in order, and the counter
    afterwards.  An exception of the log line is caught at line 401 and ends
    the handling. *)
Definition handleMessage `{JSHost} (CONFIG : Config) (clients : Clients)
    (botNumber : option jsstring) (message : Message) (checksThisMinute : nat)
    : list Action * nat :=
  match accepted CONFIG message with
  | None => ([], checksThisMinute)
  | Some (chat, text) =>
      let senderName := senderNameOf message in
      let '(spamCheck, c) :=
        isSpamMessage CONFIG clients text senderName (chatName chat) checksThisMinute in
      if truthy (isSpam spamCheck) then
        if spamLogThrows spamCheck then ([], c)
        else if negb (isBotAdmin botNumber chat) then ([QueryAdmin], c)
        else if dryRun CONFIG then ([QueryAdmin], c)
        else ([QueryAdmin; DeleteForEveryone], c)
      else ([], c)
  end.

(** ** Auxiliary definitions and sample inputs for the properties *)


(** [s] contains an invite link: some run of [s] reads [chat.whatsapp.com/]
    up to the case of its letters and is followed by twenty code units that
    are ASCII letters or digits. *)
Definition containsInviteLink (s : jsstring) : Prop :=
  exists before link code after,
    s = before ++ link ++ code ++ after
    /\ map SPAM_PATTERNS.foldCase link = lit "chat.whatsapp.com/"
    /\ length code = 20
    /\ forallb SPAM_PATTERNS.isAlnum code = true.

(** The message of the specification's example. *)
Definition C4_text : jsstring :=
  lit "Join my trading group https://chat.platform.com/AbCdEfGhIj1234567890 crypto signal guaranteed profit".

(** The same message with a link of the shape the regex looks for. *)
Definition C4_text_whatsapp : jsstring :=
  lit "Join my trading group https://chat.whatsapp.com/AbCdEfGhIj1234567890 crypto signal guaranteed profit".

(** A reply wrapped in prose, with [isSpam: true] and confidence 65. *)
Definition C5_reply_65 : jsstring :=
  litq "Here is the verdict: {'isSpam': true, 'confidence': 65, 'reason': 'borderline'} (end)".

(** The same with confidence 70. *)
Definition C5_reply_70 : jsstring :=
  litq "{'isSpam': true, 'confidence': 70, 'reason': 'promo'}".

(** A reply whose [isSpam] is a number. *)
Definition C5_reply_truthy : jsstring :=
  litq "{'isSpam': 1, 'confidence': 80, 'reason': 'ad'}".

(** A reply whose confidence is an object with no primitive value. *)
Definition reply_confidence_object : jsstring :=
  litq "{'isSpam': true, 'confidence': {'toString': 1}, 'reason': 'r'}".

(** A reply whose reason is an object with no primitive value. *)
Definition reply_reason_object : jsstring :=
  litq "{'isSpam': true, 'confidence': 90, 'reason': {'toString': 1}}".

(** A reply that parses but whose fields have the wrong types. *)
Definition C6_reply_wrong_shape : jsstring :=
  litq "{'isSpam':'yes','confidence':'95','reason':7}".

(** A configuration with two keywords, both occurring in the message. *)
Definition C1_config : Config :=
  mkConfig [] None false [lit "Discount"; lit "free"] false.

Definition noClients : Clients := mkClients None None.

Definition C1_message : jsstring :=
  lit "Get your FREE gift, huge DISCOUNT today".

(** A message with an invite link and two vocabulary terms, and no
    high-confidence phrase. *)
Definition C2_message : jsstring :=
  lit "New Forex tips daily, join https://chat.whatsapp.com/AbCdEfGhIj1234567890XYZ for casino nights".

(** A confidence that is an integer between 0 and 100. *)
Definition confidenceInRange (v : Verdict) : Prop :=
  exists z : Z, confidence v = num z /\ (0 <= z <= 100)%Z.

(** A configuration with the AI stage enabled and a client whose reply
    carries confidence 150. *)
Definition C8_config : Config :=
  mkConfig [] (Some ProviderAnthropic) false [] true.

Definition C8_clients : Clients :=
  mkClients
    (Some (fun _ _ _ =>
             Text (litq "{'isSpam': true, 'confidence': 150, 'reason': 'certain'}")))
    None.

(** ** Start-up: the provider and CONFIG (lines 9-63) *)

(** The environment variables the program reads: [None] is [undefined]. *)
Record Env : Type := mkEnv {
  env_AI_PROVIDER : option jsstring;
  env_ANTHROPIC_API_KEY : option jsstring;
  env_GEMINI_API_KEY : option jsstring;
  env_MONITORED_GROUPS : option jsstring;
  env_DRY_RUN : option jsstring;
  env_SPAM_KEYWORDS : option jsstring;
  env_USE_AI : option jsstring
}.

(** [!!x] on a string that may be [undefined]. *)
Definition nonEmpty (x : option jsstring) : bool :=
  match x with
  | Some (_ :: _) => true
  | _ => false
  end.

(** [x === s] on a string that may be [undefined]. *)
Definition isString (x : option jsstring) (s : jsstring) : bool :=
  match x with
  | Some v => jsstring_eqb v s
  | None => false
  end.

(** Line 9: [process.env.AI_PROVIDER?.toLowerCase() || "auto"]. *)
Definition AI_PROVIDER `{JSHost} (env : Env) : jsstring :=
  match env_AI_PROVIDER env with
  | Some s =>
      match toLowerCase s with
      | [] => lit "auto"
      | l => l
      end
  | None => lit "auto"
  end.

Definition hasAnthropicKey (env : Env) : bool := nonEmpty (env_ANTHROPIC_API_KEY env).
Definition hasGeminiKey (env : Env) : bool := nonEmpty (env_GEMINI_API_KEY env).

(** Lines 14-22. *)
Definition getActiveProvider `{JSHost} (env : Env) : option Provider :=
  if jsstring_eqb (AI_PROVIDER env) (lit "anthropic") && hasAnthropicKey env
  then Some ProviderAnthropic
  else if jsstring_eqb (AI_PROVIDER env) (lit "gemini") && hasGeminiKey env
  then Some ProviderGemini
  else if jsstring_eqb (AI_PROVIDER env) (lit "auto") then
    if hasAnthropicKey env then Some ProviderAnthropic
    else if hasGeminiKey env then Some ProviderGemini
    else None
  else None.

(** [s.split(sep)] for a separator of one code unit. *)
Fixpoint split (sep : N) (s : jsstring) : list jsstring :=
  match s with
  | [] => [[]]
  | c :: s' =>
      if N.eqb c sep then [] :: split sep s'
      else match split sep s' with
           | p :: ps => (c :: p) :: ps
           | [] => [[c]]
           end
  end.

(** [arr.filter(Boolean)] on an array of strings. *)
Definition filterBoolean (arr : list jsstring) : list jsstring :=
  filter (fun p => match p with [] => false | _ => true end) arr.

(** [process.env.X?.split(",").filter(Boolean) || []]. *)
Definition commaList (x : option jsstring) : list jsstring :=
  match x with
  | Some s => filterBoolean (split 44 s)
  | None => []
  end.

(** Lines 27-47. *)
Definition makeConfig `{JSHost} (env : Env) : Config :=
  {| monitoredGroups := commaList (env_MONITORED_GROUPS env);
     aiProvider := getActiveProvider env;
     dryRun := isString (env_DRY_RUN env) (lit "true");
     customSpamKeywords := commaList (env_SPAM_KEYWORDS env);
     useAI := negb (isString (env_USE_AI env) (lit "false"))
              && negb (isNull (getActiveProvider env)) |}.

(** Lines 50-63: the clients built at start-up, [sdkAnthropic] and
    [sdkGemini] being what the two SDKs provide once constructed. *)
Definition initClients `{JSHost} (env : Env) (sdkAnthropic sdkGemini : Client) : Clients :=
  let CONFIG := makeConfig env in
  {| anthropic :=
       match aiProvider CONFIG with
       | Some ProviderAnthropic =>
           if nonEmpty (env_ANTHROPIC_API_KEY env) then Some sdkAnthropic else None
       | _ => None
       end;
     gemini :=
       match aiProvider CONFIG with
       | Some ProviderGemini =>
           if nonEmpty (env_GEMINI_API_KEY env) then Some sdkGemini else None
       | _ => None
       end |}.

(** ** The rule engine with the regex object's state threaded *)

(** Lines 145-201 with the [lastIndex] of the shared regex object as an
    argument and a result. *)
Definition detectSpamGroupInvite_at `{JSHost} (lastIndex : nat) (message : jsstring)
    : Verdict * nat :=
  let lowerMessage := toLowerCase message in
  let '(hasGroupInvite, lastIndex') := testGroupInvite lastIndex message in
  (match find (fun phrase => includes lowerMessage phrase)
              SPAM_PATTERNS.highConfidenceSpam with
   | Some phrase =>
       mkVerdict (JBool true) (num 95)
         (JStr (lit "High-confidence spam phrase: " ++ dquote ++ phrase ++ dquote))
   | None =>
       let matched := matchedKeywords lowerMessage in
       if hasGroupInvite && (2 <=? length matched) then
         mkVerdict (JBool true) (num 90)
           (JStr (lit "Group invite with spam keywords: "
                  ++ join (lit ", ") (slice0 3 matched)))
       else if hasGroupInvite && (length matched =? 1) then
         mkVerdict (JBool true) (num 75)
           (JStr (lit "Group invite with suspicious keyword: "
                  ++ nth 0 matched []))
       else if 3 <=? length matched then
         mkVerdict (JBool true) (num 80)
           (JStr (lit "Multiple spam indicators: "
                  ++ join (lit ", ") (slice0 3 matched)))
       else
         mkVerdict (JBool false) (num 0) (str "No spam patterns detected")
   end,
   lastIndex').

(** The verdicts of successive calls, the state going from one to the next. *)
Fixpoint detectEach `{JSHost} (lastIndex : nat) (messages : list jsstring)
    : list Verdict * nat :=
  match messages with
  | [] => ([], lastIndex)
  | m :: rest =>
      let '(v, li) := detectSpamGroupInvite_at lastIndex m in
      let '(vs, li') := detectEach li rest in
      (v :: vs, li')
  end.

(** ** The event loop (lines 91-93 and 447) *)

(** A message arriving, or the timer of the rate limit firing. *)
Inductive Event : Type :=
| Incoming (message : Message)
| Timer.

(** The requests of a run in which each message is handled to the end
    before the next event, and the counter after it. *)
Fixpoint run `{JSHost} (CONFIG : Config) (clients : Clients)
    (botNumber : option jsstring) (events : list Event) (checksThisMinute : nat)
    : list (list Action) * nat :=
  match events with
  | [] => ([], checksThisMinute)
  | Incoming message :: rest =>
      let '(acts, c) := handleMessage CONFIG clients botNumber message checksThisMinute in
      let '(more, c') := run CONFIG clients botNumber rest c in
      (acts :: more, c')
  | Timer :: rest => run CONFIG clients botNumber rest (resetWindow checksThisMinute)
  end.

(** ** The listing of the [ready] handler (lines 434-443) *)

(** Whether the listing marks a group as monitored. *)
Definition monitoring (CONFIG : Config) (group : Chat) : bool :=
  (length (monitoredGroups CONFIG) =? 0)
  || existsb (jsstring_eqb (chatId group)) (monitoredGroups CONFIG).

(** One line per group: the monitoring mark, the admin mark, the group. *)
Definition readyListing (CONFIG : Config) (botNumber : option jsstring)
    (chats : list Chat) : list (bool * bool * Chat) :=
  map (fun group => (monitoring CONFIG group, isBotAdmin botNumber group, group))
      (filter isGroup chats).

(** ** Predicates used in the statements *)

(** How many answers of the gate let the call through. *)
Definition grantedCalls (answers : list (option bool)) : nat :=
  length (filter (fun a => match a with Some true => true | _ => false end) answers).

Definition ticks (es : list GateEvent) : nat :=
  length (filter (fun e => match e with Tick => true | Call => false end) es).

(** The lowercased form of [message] occurs as it is inside the lowercased
    form of [before ++ message ++ after]: so it is whenever lowercasing
    changes each code unit of these strings on its own, as on ASCII text. *)
Definition lowercasedInside `{JSHost} (before message after : jsstring) : Prop :=
  exists pre post,
    toLowerCase (before ++ message ++ after) = pre ++ toLowerCase message ++ post.

(** A group in which the bot is a super admin, and a message of it. *)
Definition sample_group : Chat :=
  mkChat true (lit "g1@g.us") (lit "Family")
         (Some [mkParticipant (lit "bot@c.us") false true]).

Definition sample_message : Message :=
  mkMessage (Some sample_group) false (Some C1_message)
            (Some (lit "ann@c.us")) None None.

(** An environment with a Gemini key and a preference for Anthropic. *)
Definition env_prefers_absent : Env :=
  mkEnv (Some (lit "Anthropic")) None (Some (lit "g-key")) None None
        (Some (lit "free,,Discount,")) None.

(** An environment with both keys and no preference. *)
Definition env_both_keys : Env :=
  mkEnv None (Some (lit "a-key")) (Some (lit "g-key")) None (Some (lit "true"))
        (Some (lit "free,Discount")) None.

(** [CONFIG] with its [dryRun] field set to [b]. *)
Definition withDryRun (b : bool) (CONFIG : Config) : Config :=
  {| monitoredGroups := monitoredGroups CONFIG;
     aiProvider := aiProvider CONFIG;
     dryRun := b;
     customSpamKeywords := customSpamKeywords CONFIG;
     useAI := useAI CONFIG |}.

Definition isDelete (a : Action) : bool :=
  match a with DeleteForEveryone => true | QueryAdmin => false end.

(** How many messages arrive in a run. *)
Definition incoming (events : list Event) : nat :=
  length (filter (fun e => match e with Incoming _ => true | Timer => false end) events).

(** A message of a group chat with a blank text. *)
Definition blank_message : Message :=
  mkMessage (Some (mkChat true (lit "g1@g.us") (lit "Family") None))
            false (Some (lit "   ")) (Some (lit "ann@c.us")) None None.

(** * Properties *)

(** ** Strings *)

Lemma startsWith_spec (p s : jsstring) :
  startsWith p s = true <-> exists b, s = p ++ b.
Proof.
  revert s; induction p as [|x p IH]; intros s; simpl.
  - split; [intros _; now exists s | reflexivity].
  - destruct s as [|y s].
    + split; [discriminate | intros [b Hb]; discriminate].
    + rewrite andb_true_iff, N.eqb_eq, IH. split.
      * intros [-> [b ->]]. now exists b.
      * intros [b Hb]. injection Hb as -> ->. split; [reflexivity | now exists b].
Qed.

(** [includes] is containment as a contiguous run of code units. *)
Lemma includes_spec (s t : jsstring) :
  includes s t = true <-> exists a b, s = a ++ t ++ b.
Proof.
  induction s as [|c s IH].
  - simpl. rewrite orb_false_r, startsWith_spec. split.
    + intros [b Hb]. now exists [], b.
    + intros [a [b Hab]]. destruct a; [now exists b | discriminate].
  - cbn [includes]. rewrite orb_true_iff, startsWith_spec, IH. split.
    + intros [[b Hb] | [a [b Hab]]].
      * now exists [], b.
      * exists (c :: a), b. now rewrite Hab.
    + intros [a [b Hab]]. destruct a as [|c' a].
      * left. now exists b.
      * right. injection Hab as _ ->. now exists a, b.
Qed.

Lemma jsstring_eqb_eq (a b : jsstring) : jsstring_eqb a b = true <-> a = b.
Proof.
  revert b; induction a as [|x a IH]; intros [|y b]; simpl;
    try (split; [discriminate | congruence]); [tauto|].
  rewrite andb_true_iff, N.eqb_eq, IH. split; [intros [-> ->] | intros [= -> ->]]; auto.
Qed.




(** The regex test followed by the reset leaves [lastIndex] at [0], whatever
    it was: every call of [detectSpamGroupInvite] starts from [0]. *)
Lemma testGroupInvite_resets (lastIndex : nat) (message : jsstring) :
  snd (testGroupInvite lastIndex message) = 0.
Proof.
  unfold testGroupInvite.
  now destruct (SPAM_PATTERNS.groupInviteRegex_test lastIndex message).
Qed.

(** ** The invite-link regex *)

Lemma startsWith_ci_spec (p s rest : jsstring) :
  SPAM_PATTERNS.startsWith_ci p s = Some rest <->
  exists link,
    s = link ++ rest
    /\ map SPAM_PATTERNS.foldCase link = map SPAM_PATTERNS.foldCase p.
Proof.
  revert s; induction p as [|x p IH]; intros s; simpl.
  - split.
    + intros [= ->]. now exists [].
    + intros [link [-> Hl]]. now destruct link.
  - destruct s as [|y s].
    + split; [discriminate|]. intros [[|? ?] [Hs Hl]]; discriminate.
    + destruct (N.eqb_spec (SPAM_PATTERNS.foldCase x) (SPAM_PATTERNS.foldCase y))
        as [Hxy|Hxy].
      * rewrite IH. split.
        -- intros [link [-> Hl]]. exists (y :: link). simpl. now rewrite Hl, Hxy.
        -- intros [[|y' link] [Hs Hl]]; [discriminate|].
           injection Hs as <- ->. injection Hl as _ Hl. now exists link.
      * split; [discriminate|]. intros [[|y' link] [Hs Hl]]; [discriminate|].
        injection Hs as <- ->. injection Hl as Hy _. congruence.
Qed.

Lemma countAlnum_spec (n : nat) (s : jsstring) :
  n <= SPAM_PATTERNS.countAlnum s <->
  exists code after,
    s = code ++ after /\ length code = n
    /\ forallb SPAM_PATTERNS.isAlnum code = true.
Proof.
  revert s; induction n as [|n IH]; intros s.
  - split; [|lia]. intros _. now exists [], s.
  - destruct s as [|c s]; simpl.
    + split; [lia|]. intros [[|? ?] [after [Hs [Hl _]]]]; discriminate.
    + destruct (SPAM_PATTERNS.isAlnum c) eqn:Ec.
      * rewrite <- Nat.succ_le_mono, IH. split.
        -- intros (code & after & -> & Hl & Hf). exists (c :: code), after.
           simpl. now rewrite Ec, Hl, Hf.
        -- intros ([|c' code] & after & Hs & Hl & Hf); [discriminate|].
           injection Hs as <- ->. injection Hl as Hl. simpl in Hf.
           apply andb_true_iff in Hf. exists code, after. tauto.
      * split; [lia|]. intros ([|c' code] & after & Hs & Hl & Hf); [discriminate|].
        injection Hs as <- ->. simpl in Hf. rewrite Ec in Hf. discriminate.
Qed.

Lemma app_inj_length {A : Type} (a a' b b' : list A) :
  length a = length a' -> a ++ b = a' ++ b' -> a = a' /\ b = b'.
Proof.
  revert a'; induction a as [|x a IH]; intros [|x' a'] Hl Hs; try discriminate.
  - now split.
  - injection Hs as -> Hs. injection Hl as Hl.
    destruct (IH a' Hl Hs) as [-> ->]. now split.
Qed.

(** A match anchored at the head of [s]. *)
Lemma matchHere_spec (s : jsstring) :
  SPAM_PATTERNS.matchHere s <> None <->
  exists link code after,
    s = link ++ code ++ after
    /\ map SPAM_PATTERNS.foldCase link = lit "chat.whatsapp.com/"
    /\ length code = 20
    /\ forallb SPAM_PATTERNS.isAlnum code = true.
Proof.
  unfold SPAM_PATTERNS.matchHere.
  destruct (SPAM_PATTERNS.startsWith_ci (lit "chat.whatsapp.com/") s)
    as [rest|] eqn:E.
  - apply startsWith_ci_spec in E. destruct E as [link [-> Hl]].
    destruct (Nat.leb_spec 20 (SPAM_PATTERNS.countAlnum rest)) as [Hc|Hc].
    + split; [intros _|discriminate].
      apply countAlnum_spec in Hc. destruct Hc as (code & after & -> & Hc & Hf).
      now exists link, code, after.
    + split; [congruence|]. intros (link' & code & after & Hs & Hl' & Hc' & Hf).
      exfalso. assert (length link = length link') as Hlen.
      { rewrite <- (length_map SPAM_PATTERNS.foldCase link),
                <- (length_map SPAM_PATTERNS.foldCase link'), Hl, Hl'.
        reflexivity. }
      destruct (app_inj_length _ _ _ _ Hlen Hs) as [_ ->].
      assert (20 <= SPAM_PATTERNS.countAlnum (code ++ after)); [|lia].
      apply countAlnum_spec. now exists code, after.
  - split; [congruence|]. intros (link & code & after & -> & Hl & _).
    assert (SPAM_PATTERNS.startsWith_ci (lit "chat.whatsapp.com/")
              (link ++ code ++ after) = Some (code ++ after)) as E'; [|congruence].
    apply startsWith_ci_spec. now exists link.
Qed.

Lemma search_spec (s : jsstring) (i : nat) :
  SPAM_PATTERNS.search s i <> None <-> containsInviteLink s.
Proof.
  revert i; induction s as [|c s IH]; intros i.
  - cbn [SPAM_PATTERNS.search].
    destruct (SPAM_PATTERNS.matchHere []) eqn:E.
    + split; [intros _|discriminate].
      assert (SPAM_PATTERNS.matchHere [] <> None) as Hm by congruence.
      apply matchHere_spec in Hm. destruct Hm as (link & code & after & Hs & Hr).
      exists [], link, code, after. tauto.
    + split; [congruence|]. intros (before & link & code & after & Hs & Hr).
      destruct before; [|discriminate].
      assert (SPAM_PATTERNS.matchHere [] <> None) as Hm; [|congruence].
      apply matchHere_spec. exists link, code, after. tauto.
  - cbn [SPAM_PATTERNS.search].
    destruct (SPAM_PATTERNS.matchHere (c :: s)) eqn:E.
    + split; [intros _|discriminate].
      assert (SPAM_PATTERNS.matchHere (c :: s) <> None) as Hm by congruence.
      apply matchHere_spec in Hm. destruct Hm as (link & code & after & Hs & Hr).
      exists [], link, code, after. tauto.
    + rewrite IH. split.
      * intros (before & link & code & after & -> & Hr).
        exists (c :: before), link, code, after. tauto.
      * intros ([|c' before] & link & code & after & Hs & Hr).
        -- assert (SPAM_PATTERNS.matchHere (c :: s) <> None) as Hm; [|congruence].
           apply matchHere_spec. exists link, code, after. tauto.
        -- injection Hs as <- ->. exists before, link, code, after. tauto.
Qed.

(** What the test of line 149 decides. *)
Lemma testGroupInvite_spec (message : jsstring) :
  fst (testGroupInvite 0 message) = true <-> containsInviteLink message.
Proof.
  unfold testGroupInvite, SPAM_PATTERNS.groupInviteRegex_test.
  cbn [Nat.ltb Nat.leb skipn]. rewrite <- (search_spec message 0).
  destruct (SPAM_PATTERNS.search message 0); cbn [fst];
    split; congruence.
Qed.

(** ** The Pattern Rule Engine *)

Section RuleEngine.

Context `{JSHost}.

Variable message : jsstring.

Let lowerMessage := toLowerCase message.
Let hasGroupInvite := fst (testGroupInvite 0 message).
Let matched := matchedKeywords lowerMessage.

(** The verdict when some high-confidence phrase occurs: the first of the
    list wins. *)
Lemma detect_highConfidence (phrase : jsstring) :
  find (fun p => includes lowerMessage p) SPAM_PATTERNS.highConfidenceSpam
    = Some phrase ->
  detectSpamGroupInvite message
    = mkVerdict (JBool true) (num 95)
        (JStr (lit "High-confidence spam phrase: " ++ dquote ++ phrase ++ dquote)).
Proof. unfold detectSpamGroupInvite. fold lowerMessage. now intros ->. Qed.

(** The verdict when none does: the three remaining rules in order. *)
Lemma detect_noHighConfidence :
  find (fun p => includes lowerMessage p) SPAM_PATTERNS.highConfidenceSpam = None ->
  detectSpamGroupInvite message =
    if hasGroupInvite && (2 <=? length matched) then
      mkVerdict (JBool true) (num 90)
        (JStr (lit "Group invite with spam keywords: "
               ++ join (lit ", ") (slice0 3 matched)))
    else if hasGroupInvite && (length matched =? 1) then
      mkVerdict (JBool true) (num 75)
        (JStr (lit "Group invite with suspicious keyword: " ++ nth 0 matched []))
    else if 3 <=? length matched then
      mkVerdict (JBool true) (num 80)
        (JStr (lit "Multiple spam indicators: "
               ++ join (lit ", ") (slice0 3 matched)))
    else mkVerdict (JBool false) (num 0) (str "No spam patterns detected").
Proof. unfold detectSpamGroupInvite. fold lowerMessage. now intros ->. Qed.

End RuleEngine.

(** The first element a [find] returns splits the list. *)
Lemma find_first_split {A : Type} (f : A -> bool) (l : list A) (x : A) :
  find f l = Some x ->
  exists before after,
    l = before ++ x :: after /\ f x = true
    /\ forall y, In y before -> f y = false.
Proof.
  induction l as [|a l IH]; simpl; [discriminate|].
  destruct (f a) eqn:Fa.
  - intros [= ->]. exists [], l. repeat split; auto. intros y [].
  - intros E. destruct (IH E) as (before & after & -> & Hx & Hb).
    exists (a :: before), after. repeat split; auto.
    intros y [<-|Hy]; auto.
Qed.

(** Case analysis on the rule that fires: the goal is left with the verdict
    of each of the five rules in turn. *)
Ltac detect_cases message :=
  let E := fresh "E" in
  destruct (find (fun p => includes (toLowerCase message) p)
                 SPAM_PATTERNS.highConfidenceSpam) as [?phrase|] eqn:E;
  [ rewrite (detect_highConfidence _ _ E)
  | rewrite (detect_noHighConfidence _ E);
    destruct (_ && (2 <=? _));
    [| destruct (_ && (_ =? 1)); [| destruct (3 <=? _)]] ].

(** The confidences the rule engine can give. *)
Lemma detect_confidence `{JSHost} (message : jsstring) :
  exists z : Z,
    In z [0; 75; 80; 90; 95]%Z
    /\ confidence (detectSpamGroupInvite message) = num z.
Proof.
  detect_cases message;
    [exists 95%Z | exists 90%Z | exists 75%Z | exists 80%Z | exists 0%Z];
    cbn [confidence In]; split; tauto || reflexivity.
Qed.

(** C10: for every text the rule engine's confidence is one of 0, 75, 80,
    90, 95, and [isSpam] is [true] exactly when the confidence is above 0;
    the verdict that is not spam is [{isSpam: false, confidence: 0}]. *)
Theorem C10_rule_engine_confidences `{JSHost} (message : jsstring) :
  exists z : Z,
    In z [0; 75; 80; 90; 95]%Z
    /\ confidence (detectSpamGroupInvite message) = num z
    /\ isSpam (detectSpamGroupInvite message) = JBool (0 <? z)%Z
    /\ (isSpam (detectSpamGroupInvite message) = JBool false ->
        detectSpamGroupInvite message
          = mkVerdict (JBool false) (num 0) (str "No spam patterns detected")).
Proof.
  detect_cases message;
    [exists 95%Z | exists 90%Z | exists 75%Z | exists 80%Z | exists 0%Z];
    cbn [confidence isSpam In]; repeat split; tauto || discriminate.
Qed.

(** C3: a text whose lowercased form contains a high-confidence phrase gets
    [isSpam = true] with confidence 95, citing the first such phrase of the
    list, whatever the invite link and the vocabulary say; the orchestrator
    returns that verdict without consuming a check, whatever the clients. *)
Theorem C3_high_confidence_phrase `{JSHost} (message phrase : jsstring) :
  In phrase SPAM_PATTERNS.highConfidenceSpam ->
  includes (toLowerCase message) phrase = true ->
  exists first before after,
    SPAM_PATTERNS.highConfidenceSpam = before ++ first :: after
    /\ includes (toLowerCase message) first = true
    /\ (forall p, In p before -> includes (toLowerCase message) p = false)
    /\ detectSpamGroupInvite message
       = mkVerdict (JBool true) (num 95)
           (JStr (lit "High-confidence spam phrase: " ++ dquote ++ first ++ dquote))
    /\ forall CONFIG clients senderName groupName checks,
         find (fun keyword => includes (toLowerCase message) (toLowerCase keyword))
              (customSpamKeywords CONFIG) = None ->
         isSpamMessage CONFIG clients message senderName groupName checks
         = (detectSpamGroupInvite message, checks).
Proof.
  intros Hin Hinc.
  destruct (find (fun p => includes (toLowerCase message) p)
                 SPAM_PATTERNS.highConfidenceSpam) as [first|] eqn:E.
  - destruct (find_first_split _ _ _ E) as (before & after & Hsplit & Hfirst & Hbefore).
    exists first, before, after. rewrite (detect_highConfidence _ _ E).
    repeat split; auto.
    intros CONFIG clients senderName groupName checks Hk.
    unfold isSpamMessage. rewrite Hk, (detect_highConfidence _ _ E). reflexivity.
  - pose proof (find_none _ _ E _ Hin) as Hno. cbn beta in Hno. congruence.
Qed.


(** C4, refuted as stated: on the example message the link matcher finds no
    invite link and the confidence is not 90. *)
Lemma C4_counterexample :
  fst (testGroupInvite 0 C4_text) = false
  /\ confidence (@detectSpamGroupInvite refHost C4_text) <> num 90.
Proof. split; [vm_compute; reflexivity | vm_compute; discriminate]. Qed.

(** C4, amended: on the example message the high-confidence phrase
    "join my trading group" matches first, so the verdict is spam with
    confidence 95; the message does contain four vocabulary terms; the
    verdict is the same when the link has the shape the regex looks for. *)
Theorem C4_example_message :
  @detectSpamGroupInvite refHost C4_text
    = mkVerdict (JBool true) (num 95)
        (JStr (lit "High-confidence spam phrase: " ++ dquote
               ++ lit "join my trading group" ++ dquote))
  /\ @matchedKeywords refHost (refToLowerCase C4_text)
     = map lit ["trading"; "crypto"; "crypto signal"; "guaranteed profit"]%string
  /\ fst (testGroupInvite 0 C4_text_whatsapp) = true
  /\ @detectSpamGroupInvite refHost C4_text_whatsapp
     = @detectSpamGroupInvite refHost C4_text.
Proof. repeat split; vm_compute; reflexivity. Qed.

(** ** The AI stage *)

Lemma js_and_true (a : jsval) (b : bool) :
  js_and a (JBool b) = JBool true <-> truthy a = true /\ b = true.
Proof.
  unfold js_and. destruct (truthy a) eqn:Ta.
  - split; [intros [= ->]; auto | intros [_ ->]; reflexivity].
  - split; [intros ->; discriminate | intros [? _]; discriminate].
Qed.

Lemma num_ge_below (q : Q) (k : Z) : (q < inject_Z k)%Q -> num_ge (Fin q) k = false.
Proof.
  intros Hlt. simpl. destruct (Qle_bool (inject_Z k) q) eqn:E; [|reflexivity].
  apply Qle_bool_iff in E. exfalso. exact (Qlt_not_le _ _ Hlt E).
Qed.

(** The verdict of a reply that parses to a value whose fields can be read:
    the fields go through the gate as they are, and a comparison that
    throws gives the parse-error verdict. *)
Lemma parseReply_parsed `{JSHost} (content text : jsstring)
    (result rIsSpam rConfidence rReason : jsval) :
  jsonMatch content = Some text ->
  JSON_parse text = Some result ->
  getField result (lit "isSpam") = Some rIsSpam ->
  getField result (lit "confidence") = Some rConfidence ->
  getField result (lit "reason") = Some rReason ->
  parseReply content
  = if truthy rIsSpam then
      match js_ge rConfidence 70%Z with
      | Some b => mkVerdict (JBool b) rConfidence rReason
      | None => parseError
      end
    else mkVerdict rIsSpam rConfidence rReason.
Proof.
  intros Hm Hp Hi Hc Hr. unfold parseReply, gateParsed.
  rewrite Hm, Hp, Hi, Hc, Hr. unfold js_and.
  destruct (truthy rIsSpam) eqn:T; [|reflexivity].
  destruct (js_ge rConfidence 70%Z); reflexivity.
Qed.

(** C5, refuted as stated: a reply whose [isSpam] is the number 1, not the
    boolean [true], with confidence 80 is reported as spam. *)
Lemma C5_counterexample :
  @JSON_parse refHost C5_reply_truthy
  = Some (JObj [(lit "isSpam", num 1); (lit "confidence", num 80);
                (lit "reason", str "ad")])
  /\ num 1 <> JBool true
  /\ @parseReply refHost C5_reply_truthy
     = mkVerdict (JBool true) (num 80) (str "ad").
Proof.
  split; [vm_compute; reflexivity|].
  split; [discriminate | vm_compute; reflexivity].
Qed.

(** C5, amended: for a reply that parses, the verdict's [isSpam] is [true]
    exactly when the parsed [isSpam] is truthy and the parsed confidence is
    at least 70 under the comparison of the language; when the parsed
    confidence is a number below 70 the verdict is not spam (a parsed
    [isSpam: true] becomes [false]) and keeps the parsed confidence and
    reason; confidence 70 with [isSpam: true] is spam.  The confidence and
    the reason are kept whenever the comparison is not evaluated or does
    not throw; when it throws the verdict is the parse-error one. *)
Theorem C5_ai_threshold `{JSHost} (content text : jsstring)
    (result rIsSpam rConfidence rReason : jsval) :
  jsonMatch content = Some text ->
  JSON_parse text = Some result ->
  getField result (lit "isSpam") = Some rIsSpam ->
  getField result (lit "confidence") = Some rConfidence ->
  getField result (lit "reason") = Some rReason ->
  let v := parseReply content in
  (isSpam v = JBool true <->
     truthy rIsSpam = true /\ js_ge rConfidence 70%Z = Some true)
  /\ (forall q, rConfidence = JNum (Fin q) -> (q < inject_Z 70)%Q ->
      confidence v = rConfidence
      /\ reason v = rReason
      /\ truthy (isSpam v) = false
      /\ (truthy rIsSpam = true -> isSpam v = JBool false))
  /\ (rIsSpam = JBool true -> rConfidence = num 70 ->
      v = mkVerdict (JBool true) (num 70) rReason)
  /\ (truthy rIsSpam = false \/ js_ge rConfidence 70%Z <> None ->
      confidence v = rConfidence /\ reason v = rReason)
  /\ (truthy rIsSpam = true -> js_ge rConfidence 70%Z = None -> v = parseError).
Proof.
  intros Hm Hp Hi Hc Hr v. subst v.
  rewrite (parseReply_parsed _ _ _ _ _ _ Hm Hp Hi Hc Hr).
  split; [|split; [|split; [|split]]].
  - destruct (truthy rIsSpam) eqn:T.
    + destruct (js_ge rConfidence 70%Z) as [b|]; cbn [isSpam parseError].
      * split; [intros [= ->]; auto | intros [_ [= ->]]; reflexivity].
      * split; [discriminate | intros [_ Hn]; discriminate Hn].
    + cbn [isSpam]. split; [intros ->; discriminate T | intros [Ht _]; discriminate Ht].
  - intros q -> Hlt. unfold js_ge. cbn [ToNumber option_map].
    rewrite (num_ge_below _ _ Hlt).
    destruct (truthy rIsSpam) eqn:T; cbn [confidence reason isSpam truthy];
      repeat split; auto; discriminate.
  - intros -> ->. reflexivity.
  - intros [Hf|Hn].
    + rewrite Hf. now split.
    + destruct (truthy rIsSpam); [|now split].
      destruct (js_ge rConfidence 70%Z); [now split | contradiction].
  - intros -> ->. reflexivity.
Qed.

(** C5 evaluated on a reply wrapped in prose with confidence 65. *)
Lemma C5_witness :
  let v := @parseReply refHost C5_reply_65 in
  (isSpam v = JBool true <->
     truthy (JBool true) = true /\ @js_ge refHost (num 65) 70%Z = Some true)
  /\ (forall q, num 65 = JNum (Fin q) -> (q < inject_Z 70)%Q ->
      confidence v = num 65
      /\ reason v = str "borderline"
      /\ truthy (isSpam v) = false
      /\ (truthy (JBool true) = true -> isSpam v = JBool false))
  /\ (JBool true = JBool true -> num 65 = num 70 ->
      v = mkVerdict (JBool true) (num 70) (str "borderline"))
  /\ (truthy (JBool true) = false \/ @js_ge refHost (num 65) 70%Z <> None ->
      confidence v = num 65 /\ reason v = str "borderline")
  /\ (truthy (JBool true) = true -> @js_ge refHost (num 65) 70%Z = None ->
      v = parseError).
Proof.
  apply (@C5_ai_threshold refHost C5_reply_65
           (litq "{'isSpam': true, 'confidence': 65, 'reason': 'borderline'}")
           (JObj [(lit "isSpam", JBool true); (lit "confidence", num 65);
                  (lit "reason", str "borderline")]));
    vm_compute; reflexivity.
Defined.

(** C6, refuted as stated: a reply whose fields have the wrong shape is not
    answered with the parse-error verdict; this one is reported as spam, with
    a string for confidence and a number for reason.  The empty object is
    not rejected either. *)
Lemma C6_counterexample :
  @parseReply refHost C6_reply_wrong_shape
    = mkVerdict (JBool true) (str "95") (num 7)
  /\ @parseReply refHost C6_reply_wrong_shape <> parseError
  /\ @parseReply refHost (litq "{}") = mkVerdict JUndefined JUndefined JUndefined.
Proof.
  split; [vm_compute; reflexivity|].
  split; [vm_compute; discriminate | vm_compute; reflexivity].
Qed.

Lemma parseReply_cases `{JSHost} (content : jsstring) :
  parseReply content = parseError
  \/ exists text result rIsSpam rConfidence rReason,
       jsonMatch content = Some text
       /\ JSON_parse text = Some result
       /\ getField result (lit "isSpam") = Some rIsSpam
       /\ getField result (lit "confidence") = Some rConfidence
       /\ getField result (lit "reason") = Some rReason
       /\ parseReply content
          = if truthy rIsSpam then
              match js_ge rConfidence 70%Z with
              | Some b => mkVerdict (JBool b) rConfidence rReason
              | None => parseError
              end
            else mkVerdict rIsSpam rConfidence rReason.
Proof.
  destruct (jsonMatch content) as [text|] eqn:Hm;
    [|left; unfold parseReply; now rewrite Hm].
  destruct (JSON_parse text) as [result|] eqn:Hp;
    [|left; unfold parseReply; now rewrite Hm, Hp].
  destruct (getField result (lit "isSpam")) as [rI|] eqn:Hi;
    [|left; unfold parseReply, gateParsed; now rewrite Hm, Hp, Hi].
  destruct (getField result (lit "confidence")) as [rC|] eqn:Hc;
    [|left; unfold parseReply, gateParsed; now rewrite Hm, Hp, Hi, Hc].
  destruct (getField result (lit "reason")) as [rR|] eqn:Hr;
    [|left; unfold parseReply, gateParsed; now rewrite Hm, Hp, Hi, Hc, Hr].
  right. exists text, result, rI, rC, rR. repeat split; try assumption.
  exact (parseReply_parsed _ _ _ _ _ _ Hm Hp Hi Hc Hr).
Qed.

(** C6, amended: when the reply holds no brace-delimited region, or
    [JSON.parse] throws on it, or the parsed value is [null], the verdict is
    [{isSpam: false, confidence: 0, reason: "Parse error"}]; when the
    provider call throws it is [{isSpam: false, confidence: 0, reason:
    "API error"}].  A reply that parses is not checked for the shape of its
    fields: they go through the gate as they are, the parsed [isSpam] when
    it is falsy and the result of the comparison with 70 otherwise, the
    confidence and the reason copied; only when that comparison itself
    throws is the parse-error verdict returned.  A verdict with a truthy
    [isSpam] only comes from a reply that parsed, whose [isSpam] is truthy
    and whose confidence is at least 70. *)
Theorem C6_ai_failures `{JSHost} :
  (forall content, jsonMatch content = None -> parseReply content = parseError)
  /\ (forall content text,
        jsonMatch content = Some text -> JSON_parse text = None ->
        parseReply content = parseError)
  /\ (forall content text,
        jsonMatch content = Some text -> JSON_parse text = Some JNull ->
        parseReply content = parseError)
  /\ (forall content text result rIsSpam rConfidence rReason,
        jsonMatch content = Some text ->
        JSON_parse text = Some result ->
        getField result (lit "isSpam") = Some rIsSpam ->
        getField result (lit "confidence") = Some rConfidence ->
        getField result (lit "reason") = Some rReason ->
        parseReply content
        = if truthy rIsSpam then
            match js_ge rConfidence 70%Z with
            | Some b => mkVerdict (JBool b) rConfidence rReason
            | None => parseError
            end
          else mkVerdict rIsSpam rConfidence rReason)
  /\ (forall CONFIG clients message senderName groupName ruleBasedResult call,
        selectClient CONFIG clients = Some call ->
        call message senderName groupName = Throws ->
        aiDetect CONFIG clients message senderName groupName ruleBasedResult
        = apiError)
  /\ (forall CONFIG clients message senderName groupName ruleBasedResult call content,
        selectClient CONFIG clients = Some call ->
        call message senderName groupName = Text content ->
        aiDetect CONFIG clients message senderName groupName ruleBasedResult
        = parseReply content)
  /\ (forall content,
        truthy (isSpam (parseReply content)) = true ->
        exists text result rIsSpam rConfidence,
          jsonMatch content = Some text
          /\ JSON_parse text = Some result
          /\ getField result (lit "isSpam") = Some rIsSpam
          /\ getField result (lit "confidence") = Some rConfidence
          /\ truthy rIsSpam = true
          /\ js_ge rConfidence 70%Z = Some true)
  /\ truthy (isSpam parseError) = false
  /\ truthy (isSpam apiError) = false.
Proof.
  split; [intros content E; unfold parseReply; now rewrite E|].
  split; [intros content text E P; unfold parseReply; now rewrite E, P|].
  split; [intros content text E P; unfold parseReply; now rewrite E, P|].
  split; [intros content text result rI rC rR;
          exact (parseReply_parsed content text result rI rC rR)|].
  split; [intros ? ? ? ? ? ? call S T; unfold aiDetect; now rewrite S, T|].
  split; [intros ? ? ? ? ? ? call content S T; unfold aiDetect; now rewrite S, T|].
  split; [|split; reflexivity].
  intros content Ht.
  destruct (parseReply_cases content)
    as [E | (text & result & rI & rC & rR & Hm & Hp & Hi & Hc & _ & E)];
    rewrite E in Ht; [discriminate|].
  exists text, result, rI, rC.
  destruct (truthy rI) eqn:T; [|cbn [isSpam] in Ht; congruence].
  destruct (js_ge rC 70%Z) as [[|]|]; try discriminate Ht.
  repeat split; assumption.
Qed.

(** ** The orchestrator *)

(** C1: when the lowercased message contains the lowercased form of some
    configured keyword, the verdict is spam with confidence 100 and a reason
    citing the first such keyword of the list, whatever else the message
    holds, whatever the clients and the counter, which is left as it was. *)
Theorem C1_custom_keyword `{JSHost} (CONFIG : Config) (clients : Clients)
    (message senderName groupName : jsstring) (checks : nat) (kw : jsstring) :
  In kw (customSpamKeywords CONFIG) ->
  includes (toLowerCase message) (toLowerCase kw) = true ->
  exists first before after,
    customSpamKeywords CONFIG = before ++ first :: after
    /\ includes (toLowerCase message) (toLowerCase first) = true
    /\ (forall k, In k before ->
        includes (toLowerCase message) (toLowerCase k) = false)
    /\ isSpamMessage CONFIG clients message senderName groupName checks
       = (mkVerdict (JBool true) (num 100)
            (JStr (lit "Contains blocked keyword: " ++ first)),
          checks).
Proof.
  intros Hin Hinc.
  destruct (find (fun keyword => includes (toLowerCase message) (toLowerCase keyword))
                 (customSpamKeywords CONFIG)) as [first|] eqn:E.
  - destruct (find_first_split _ _ _ E) as (before & after & Hsplit & Hfirst & Hbefore).
    exists first, before, after. unfold isSpamMessage. rewrite E. auto.
  - pose proof (find_none _ _ E _ Hin) as Hno. cbn beta in Hno. congruence.
Qed.

(** C1 evaluated on a message holding both configured keywords. *)
Lemma C1_witness :
  exists first before after,
    customSpamKeywords C1_config = before ++ first :: after
    /\ includes (refToLowerCase C1_message) (refToLowerCase first) = true
    /\ (forall k, In k before ->
        includes (refToLowerCase C1_message) (refToLowerCase k) = false)
    /\ @isSpamMessage refHost C1_config noClients C1_message
         (lit "Ann") (lit "Family") 7
       = (mkVerdict (JBool true) (num 100)
            (JStr (lit "Contains blocked keyword: " ++ first)),
          7).
Proof.
  apply (@C1_custom_keyword refHost C1_config noClients C1_message
           (lit "Ann") (lit "Family") 7 (lit "free")).
  - right. left. reflexivity.
  - vm_compute. reflexivity.
Defined.

(** The first keyword of the list wins on that message. *)
Example C1_first_keyword_wins :
  @isSpamMessage refHost C1_config noClients C1_message (lit "Ann") (lit "Family") 7
  = (mkVerdict (JBool true) (num 100) (str "Contains blocked keyword: Discount"), 7).
Proof. vm_compute. reflexivity. Qed.

(** C3 evaluated on the example message with a link of the matched shape. *)
Lemma C3_witness :
  exists first before after,
    SPAM_PATTERNS.highConfidenceSpam = before ++ first :: after
    /\ includes (refToLowerCase C4_text_whatsapp) first = true
    /\ (forall p, In p before -> includes (refToLowerCase C4_text_whatsapp) p = false)
    /\ @detectSpamGroupInvite refHost C4_text_whatsapp
       = mkVerdict (JBool true) (num 95)
           (JStr (lit "High-confidence spam phrase: " ++ dquote ++ first ++ dquote))
    /\ forall CONFIG clients senderName groupName checks,
         find (fun keyword =>
                 includes (refToLowerCase C4_text_whatsapp) (refToLowerCase keyword))
              (customSpamKeywords CONFIG) = None ->
         @isSpamMessage refHost CONFIG clients C4_text_whatsapp senderName groupName checks
         = (@detectSpamGroupInvite refHost C4_text_whatsapp, checks).
Proof.
  apply (@C3_high_confidence_phrase refHost C4_text_whatsapp
           (lit "join my trading group")).
  - left. reflexivity.
  - vm_compute. reflexivity.
Defined.


(** The three rules on concrete messages. *)
Example C2_confidence_90 :
  @detectSpamGroupInvite refHost C2_message
  = mkVerdict (JBool true) (num 90) (str "Group invite with spam keywords: forex, casino").
Proof. vm_compute. reflexivity. Qed.

Example C2_confidence_75 :
  @detectSpamGroupInvite refHost
    (lit "Our Academy: HTTPS://CHAT.WHATSAPP.COM/abcdefghij0123456789")
  = mkVerdict (JBool true) (num 75) (str "Group invite with suspicious keyword: academy").
Proof. vm_compute. reflexivity. Qed.

Example C2_confidence_80 :
  @detectSpamGroupInvite refHost (lit "Bitcoin webinar, then a casino jackpot")
  = mkVerdict (JBool true) (num 80)
      (str "Multiple spam indicators: bitcoin, webinar, casino").
Proof. vm_compute. reflexivity. Qed.

Example invite_link_alone_is_not_spam :
  @detectSpamGroupInvite refHost
    (lit "Family group: https://chat.whatsapp.com/abcdefghij0123456789")
  = mkVerdict (JBool false) (num 0) (str "No spam patterns detected").
Proof. vm_compute. reflexivity. Qed.

Example short_invite_code_is_no_link :
  fst (testGroupInvite 0 (lit "https://chat.whatsapp.com/abcdefghij012345678")) = false.
Proof. vm_compute. reflexivity. Qed.

(** ** The rate limit *)

Lemma tryAdmit_below (c : nat) :
  c < MAX_CHECKS_PER_MINUTE -> tryAdmit c = (true, S c).
Proof.
  intros Hc. unfold tryAdmit.
  destruct (Nat.leb_spec MAX_CHECKS_PER_MINUTE c); [lia | reflexivity].
Qed.

Lemma tryAdmit_at_ceiling (c : nat) :
  MAX_CHECKS_PER_MINUTE <= c -> tryAdmit c = (false, c).
Proof.
  intros Hc. unfold tryAdmit.
  destruct (Nat.leb_spec MAX_CHECKS_PER_MINUTE c); [reflexivity | lia].
Qed.

(** [n] calls in a row, with no timer tick between them, from counter [c]:
    the first [MAX - c] are admitted, the others denied. *)
Lemma gateRun_calls (n c : nat) :
  c <= MAX_CHECKS_PER_MINUTE ->
  gateRun c (repeat Call n)
  = (repeat (Some true) (Nat.min n (MAX_CHECKS_PER_MINUTE - c))
       ++ repeat (Some false) (n - (MAX_CHECKS_PER_MINUTE - c)),
     c + Nat.min n (MAX_CHECKS_PER_MINUTE - c)).
Proof.
  revert c. induction n as [|n IH]; intros c Hc.
  - simpl. now rewrite Nat.add_0_r.
  - cbn [repeat gateRun gateStep].
    destruct (Nat.eq_dec c MAX_CHECKS_PER_MINUTE) as [->|Hne].
    + rewrite tryAdmit_at_ceiling by lia. rewrite IH by lia.
      rewrite Nat.sub_diag, !Nat.min_0_r, !Nat.sub_0_r. reflexivity.
    + rewrite tryAdmit_below by lia. rewrite IH by lia.
      replace (MAX_CHECKS_PER_MINUTE - c) with (S (MAX_CHECKS_PER_MINUTE - S c)) by lia.
      cbn [Nat.min Nat.sub repeat app]. f_equal. lia.
Qed.

(** The counter never exceeds the ceiling, whatever the calls and ticks. *)
Lemma gateRun_bounded (es : list GateEvent) (c : nat) :
  c <= MAX_CHECKS_PER_MINUTE -> snd (gateRun c es) <= MAX_CHECKS_PER_MINUTE.
Proof.
  revert c. induction es as [|e es IH]; intros c Hc; [exact Hc|].
  cbn [gateRun]. destruct (gateStep c e) as [r c1] eqn:E1.
  specialize (IH c1). destruct (gateRun c1 es) as [rs c2]. cbn [snd] in *.
  apply IH. destruct e; cbn [gateStep] in E1.
  - unfold tryAdmit in E1.
    destruct (Nat.leb_spec MAX_CHECKS_PER_MINUTE c); injection E1 as _ <-; lia.
  - injection E1 as _ <-. unfold resetWindow. lia.
Qed.

(** C7: a call is admitted and counted while the counter is below the
    ceiling of 30, and denied with the counter unchanged once it has reached
    it; of [n] calls in one window the first 30 are admitted and every later
    one is denied; the timer sets the counter to 0, after which calls are
    admitted again from zero; the counter never exceeds 30; [isSpamMessage]
    consults exactly this gate when
    it reaches the AI stage. *)
Theorem C7_rate_gate `{JSHost} :
  MAX_CHECKS_PER_MINUTE = 30
  /\ (forall c, c < 30 -> tryAdmit c = (true, S c))
  /\ (forall c, 30 <= c -> tryAdmit c = (false, c))
  /\ (forall n,
        gateRun 0 (repeat Call n)
        = (repeat (Some true) (Nat.min n 30) ++ repeat (Some false) (n - 30),
           Nat.min n 30))
  /\ (forall es, snd (gateRun 0 es) <= 30)
  /\ (forall c, resetWindow c = 0)
  /\ (forall c n,
        gateRun c (Tick :: repeat Call n)
        = (None :: repeat (Some true) (Nat.min n 30) ++ repeat (Some false) (n - 30),
           Nat.min n 30))
  /\ (forall CONFIG clients message senderName groupName c,
        find (fun keyword => includes (toLowerCase message) (toLowerCase keyword))
             (customSpamKeywords CONFIG) = None ->
        truthy (isSpam (detectSpamGroupInvite message)) = false ->
        useAI CONFIG = true ->
        isNull (anthropic clients) && isNull (gemini clients) = false ->
        snd (isSpamMessage CONFIG clients message senderName groupName c)
          = snd (tryAdmit c)
        /\ (fst (tryAdmit c) = false ->
            isSpamMessage CONFIG clients message senderName groupName c
            = (rateLimited, c))).
Proof.
  split; [reflexivity|].
  split; [exact tryAdmit_below|].
  split; [exact tryAdmit_at_ceiling|].
  split; [intros n; rewrite (gateRun_calls n 0) by (unfold MAX_CHECKS_PER_MINUTE; lia);
          reflexivity|].
  split; [intros es; apply gateRun_bounded; unfold MAX_CHECKS_PER_MINUTE; lia|].
  split; [reflexivity|].
  split.
  - intros c n.
    change (gateRun c (Tick :: repeat Call n))
      with (let '(rs, c') := gateRun 0 (repeat Call n) in (None :: rs, c')).
    rewrite (gateRun_calls n 0) by (unfold MAX_CHECKS_PER_MINUTE; lia). reflexivity.
  - intros CONFIG clients message senderName groupName c Hk Hr Hu Hc.
    unfold isSpamMessage. rewrite Hk, Hr, Hu, Hc. cbn [negb orb].
    destruct (tryAdmit c) as [[|] c'] eqn:E; cbn [fst snd]; split;
      try reflexivity; try discriminate.
    intros _. unfold tryAdmit in E.
    destruct (MAX_CHECKS_PER_MINUTE <=? c); congruence.
Qed.

(** ** The range of the confidence *)

(** C8, refuted as stated: the confidence of an AI verdict is the one the
    reply carries, here 150. *)
Lemma C8_counterexample :
  @isSpamMessage refHost C8_config C8_clients (lit "hello everyone")
    (lit "Ann") (lit "Family") 0
  = (mkVerdict (JBool true) (num 150) (str "certain"), 1)
  /\ ~ confidenceInRange
         (fst (@isSpamMessage refHost C8_config C8_clients (lit "hello everyone")
                 (lit "Ann") (lit "Family") 0)).
Proof.
  assert (@isSpamMessage refHost C8_config C8_clients (lit "hello everyone")
            (lit "Ann") (lit "Family") 0
          = (mkVerdict (JBool true) (num 150) (str "certain"), 1)) as E
    by (vm_compute; reflexivity).
  split; [exact E|]. rewrite E. intros [z [Hz Hr]]. cbn [fst confidence] in Hz.
  injection Hz as Hz. lia.
Qed.

(** A text the rule engine does not flag gets confidence 0. *)
Lemma detect_not_spam `{JSHost} (message : jsstring) :
  truthy (isSpam (detectSpamGroupInvite message)) = false ->
  confidence (detectSpamGroupInvite message) = num 0.
Proof.
  detect_cases message; cbn [isSpam truthy confidence]; intros Ht;
    try discriminate Ht; reflexivity.
Qed.

(** The confidence of the verdict of a provider reply, case by case. *)
Lemma parseReply_confidence `{JSHost} (content : jsstring) :
  (jsonMatch content = None -> confidence (parseReply content) = num 0)
  /\ (forall text, jsonMatch content = Some text ->
      (JSON_parse text = None -> confidence (parseReply content) = num 0)
      /\ (forall result, JSON_parse text = Some result ->
          (getField result (lit "isSpam") = None ->
           confidence (parseReply content) = num 0)
          /\ (forall rIsSpam rConfidence rReason,
              getField result (lit "isSpam") = Some rIsSpam ->
              getField result (lit "confidence") = Some rConfidence ->
              getField result (lit "reason") = Some rReason ->
              (truthy rIsSpam = false \/ js_ge rConfidence 70%Z <> None ->
               confidence (parseReply content) = rConfidence)
              /\ (truthy rIsSpam = true -> js_ge rConfidence 70%Z = None ->
                  confidence (parseReply content) = num 0)))).
Proof.
  split; [intros E; unfold parseReply; now rewrite E|].
  intros text Hm.
  split; [intros E; unfold parseReply; now rewrite Hm, E|].
  intros result Hp.
  split; [intros E; unfold parseReply, gateParsed; now rewrite Hm, Hp, E|].
  intros rI rC rR Hi Hc Hr.
  rewrite (parseReply_parsed _ _ _ _ _ _ Hm Hp Hi Hc Hr). split.
  - intros [Hf|Hn]; [now rewrite Hf|].
    destruct (truthy rI); [|reflexivity].
    destruct (js_ge rC 70%Z); [reflexivity | contradiction].
  - intros -> ->. reflexivity.
Qed.

(** C8, amended, path by path.  A keyword hit gives confidence 100.  With
    no keyword hit, a verdict of the rule engine (returned when it is spam
    or when the AI stage is off) has one of 0, 75, 80, 90, 95.  With the AI
    stage on and nothing found by the rules: the rate-limited verdict has
    0; with no client selected the rule verdict has 0; a provider call that
    throws gives 0; a reply with no JSON region, or that does not parse, or
    that parses to [null], gives 0; a reply that parses gives the
    [confidence] field of the reply, as it came, unless the comparison with
    70 throws, which gives 0. *)
Theorem C8_confidence_range `{JSHost} (CONFIG : Config) (clients : Clients)
    (message senderName groupName : jsstring) (checks : nat) :
  let v := fst (isSpamMessage CONFIG clients message senderName groupName checks) in
  let keywordHit :=
    find (fun keyword => includes (toLowerCase message) (toLowerCase keyword))
         (customSpamKeywords CONFIG) in
  let rule := detectSpamGroupInvite message in
  let aiOff :=
    negb (useAI CONFIG) || (isNull (anthropic clients) && isNull (gemini clients)) in
  (keywordHit <> None -> confidence v = num 100)
  /\ (keywordHit = None -> truthy (isSpam rule) = true \/ aiOff = true ->
      v = rule
      /\ exists z : Z, In z [0; 75; 80; 90; 95]%Z /\ confidence v = num z)
  /\ (keywordHit = None -> truthy (isSpam rule) = false -> aiOff = false ->
      (30 <= checks -> v = rateLimited /\ confidence v = num 0)
      /\ (checks < 30 -> selectClient CONFIG clients = None ->
          v = rule /\ confidence v = num 0)
      /\ (forall call, checks < 30 -> selectClient CONFIG clients = Some call ->
          (call message senderName groupName = Throws ->
           v = apiError /\ confidence v = num 0)
          /\ (forall content, call message senderName groupName = Text content ->
              v = parseReply content
              /\ (jsonMatch content = None -> confidence v = num 0)
              /\ (forall text, jsonMatch content = Some text ->
                  (JSON_parse text = None -> confidence v = num 0)
                  /\ (forall result, JSON_parse text = Some result ->
                      (getField result (lit "isSpam") = None ->
                       confidence v = num 0)
                      /\ (forall rIsSpam rConfidence rReason,
                          getField result (lit "isSpam") = Some rIsSpam ->
                          getField result (lit "confidence") = Some rConfidence ->
                          getField result (lit "reason") = Some rReason ->
                          (truthy rIsSpam = false
                           \/ js_ge rConfidence 70%Z <> None ->
                           confidence v = rConfidence)
                          /\ (truthy rIsSpam = true ->
                              js_ge rConfidence 70%Z = None ->
                              confidence v = num 0))))))).
Proof.
  intros v keywordHit rule aiOff. subst v keywordHit rule aiOff.
  unfold isSpamMessage. split; [|split].
  - destruct (find _ (customSpamKeywords CONFIG)); [reflexivity | contradiction].
  - intros -> Hor.
    assert (exists z : Z, In z [0; 75; 80; 90; 95]%Z
                          /\ confidence (detectSpamGroupInvite message) = num z)
      as Hrule by exact (detect_confidence message).
    destruct (truthy (isSpam (detectSpamGroupInvite message))); [now split|].
    destruct Hor as [Hf| ->]; [discriminate Hf | now split].
  - intros -> Hr -> . rewrite Hr. unfold tryAdmit.
    split; [|split].
    + intros Hge. destruct (Nat.leb_spec MAX_CHECKS_PER_MINUTE checks) as [_|Hlt];
        [now split | unfold MAX_CHECKS_PER_MINUTE in Hlt; lia].
    + intros Hlt Hs.
      destruct (Nat.leb_spec MAX_CHECKS_PER_MINUTE checks) as [Hge|_];
        [unfold MAX_CHECKS_PER_MINUTE in Hge; lia|].
      cbn [fst]. unfold aiDetect. rewrite Hs.
      split; [reflexivity | exact (detect_not_spam message Hr)].
    + intros call Hlt Hs.
      destruct (Nat.leb_spec MAX_CHECKS_PER_MINUTE checks) as [Hge|_];
        [unfold MAX_CHECKS_PER_MINUTE in Hge; lia|].
      cbn [fst]. unfold aiDetect. rewrite Hs. split.
      * intros ->. now split.
      * intros content ->. split; [reflexivity|].
        exact (parseReply_confidence content).
Qed.

(** ** Deletion *)

Lemma accepted_getChat (CONFIG : Config) (message : Message) (chat : Chat)
    (text : jsstring) :
  accepted CONFIG message = Some (chat, text) -> getChat message = Some chat.
Proof.
  unfold accepted. destruct (getChat message) as [ch|]; [|discriminate].
  destruct (negb (isGroup ch)); [discriminate|].
  destruct (_ && _); [discriminate|].
  destruct (fromMe message); [discriminate|].
  destruct (body message) as [[|c t]|]; try discriminate.
  destruct (trim_is_empty (c :: t)); [discriminate|]. now intros [= -> _].
Qed.

(** C9: the deletion is requested exactly when the message passes the
    pre-filters, its verdict is spam, the log line of the verdict is built
    without an exception, the admin check answers true and dry run is off;
    so when the admin check answers false nothing is deleted, whatever the
    verdict and the dry-run setting; and the deletion is always preceded by
    the admin query. *)
Theorem C9_delete_needs_admin `{JSHost} (CONFIG : Config) (clients : Clients)
    (botNumber : option jsstring) (message : Message) (checks : nat) :
  let actions := fst (handleMessage CONFIG clients botNumber message checks) in
  (In DeleteForEveryone actions <->
     exists chat text,
       accepted CONFIG message = Some (chat, text)
       /\ truthy (isSpam (fst (isSpamMessage CONFIG clients text
                                 (senderNameOf message) (chatName chat) checks)))
          = true
       /\ spamLogThrows (fst (isSpamMessage CONFIG clients text
                                (senderNameOf message) (chatName chat) checks))
          = false
       /\ isBotAdmin botNumber chat = true
       /\ dryRun CONFIG = false)
  /\ (forall chat, getChat message = Some chat ->
        isBotAdmin botNumber chat = false -> ~ In DeleteForEveryone actions)
  /\ (In DeleteForEveryone actions -> actions = [QueryAdmin; DeleteForEveryone]).
Proof.
  intros actions.
  assert (In DeleteForEveryone actions <->
     exists chat text,
       accepted CONFIG message = Some (chat, text)
       /\ truthy (isSpam (fst (isSpamMessage CONFIG clients text
                                 (senderNameOf message) (chatName chat) checks)))
          = true
       /\ spamLogThrows (fst (isSpamMessage CONFIG clients text
                                (senderNameOf message) (chatName chat) checks))
          = false
       /\ isBotAdmin botNumber chat = true
       /\ dryRun CONFIG = false) as Hiff.
  { subst actions. unfold handleMessage.
    destruct (accepted CONFIG message) as [[chat text]|] eqn:Ea.
    - destruct (isSpamMessage CONFIG clients text (senderNameOf message)
                  (chatName chat) checks) as [v c] eqn:Es.
      destruct (truthy (isSpam v)) eqn:Tv, (spamLogThrows v) eqn:Tl,
               (isBotAdmin botNumber chat) eqn:Ta,
               (dryRun CONFIG) eqn:Td; cbn [negb fst In];
        (split;
         [ intros Hin;
           repeat (destruct Hin as [Hin|Hin]; try discriminate Hin);
           try contradiction;
           exists chat, text; rewrite Es; auto
         | intros (chat' & text' & Hacc & T' & L' & A' & D');
           injection Hacc as <- <-; rewrite Es in T', L'; cbn [fst] in T', L';
           first [congruence | right; left; reflexivity] ]).
    - cbn [fst In]. split; [intros [] | intros (? & ? & ? & _); discriminate]. }
  split; [exact Hiff|]. split.
  - intros chat Hc Ha Hin. apply Hiff in Hin.
    destruct Hin as (chat' & text & Hacc & _ & _ & Ha' & _).
    apply accepted_getChat in Hacc. congruence.
  - subst actions. unfold handleMessage.
    destruct (accepted CONFIG message) as [[chat text]|]; [|intros []].
    destruct (isSpamMessage CONFIG clients text (senderNameOf message)
                (chatName chat) checks) as [v c].
    destruct (truthy (isSpam v)), (spamLogThrows v), (isBotAdmin botNumber chat),
             (dryRun CONFIG);
      cbn [negb fst In]; intros Hin; try reflexivity;
      repeat (destruct Hin as [Hin|Hin]; try discriminate); destruct Hin.
Qed.

(** ** Evaluated examples *)

Example reply_65_is_downgraded :
  @parseReply refHost C5_reply_65
  = mkVerdict (JBool false) (num 65) (str "borderline").
Proof. vm_compute. reflexivity. Qed.

Example reply_70_is_accepted :
  @parseReply refHost C5_reply_70 = mkVerdict (JBool true) (num 70) (str "promo").
Proof. vm_compute. reflexivity. Qed.

Example reply_without_json :
  @parseReply refHost (lit "I cannot classify this message.") = parseError.
Proof. vm_compute. reflexivity. Qed.

Example reply_with_broken_json :
  @parseReply refHost (litq "{'isSpam': true, 'confidence': }") = parseError.
Proof. vm_compute. reflexivity. Qed.

Example rate_limited_at_ceiling :
  @isSpamMessage refHost C8_config C8_clients (lit "hello everyone")
    (lit "Ann") (lit "Family") 30
  = (rateLimited, 30).
Proof. vm_compute. reflexivity. Qed.

Example ordinary_message_without_ai :
  @isSpamMessage refHost C1_config noClients
    (lit "Hey, did you see the game last night?") (lit "Ann") (lit "Family") 0
  = (mkVerdict (JBool false) (num 0) (str "No spam patterns detected"), 0).
Proof. vm_compute. reflexivity. Qed.

Example one_term_without_link :
  @detectSpamGroupInvite refHost (lit "Check out this trading opportunity")
  = mkVerdict (JBool false) (num 0) (str "No spam patterns detected").
Proof. vm_compute. reflexivity. Qed.

Example spam_is_not_deleted_without_admin :
  fst (@handleMessage refHost C1_config noClients (Some (lit "bot@c.us"))
         (mkMessage
            (Some (mkChat true (lit "g1@g.us") (lit "Family")
                     (Some [mkParticipant (lit "bot@c.us") false false])))
            false (Some C1_message) (Some (lit "ann@c.us")) None None)
         0)
  = [QueryAdmin].
Proof. vm_compute. reflexivity. Qed.

Example spam_is_deleted_by_an_admin :
  fst (@handleMessage refHost C1_config noClients (Some (lit "bot@c.us"))
         (mkMessage
            (Some (mkChat true (lit "g1@g.us") (lit "Family")
                     (Some [mkParticipant (lit "bot@c.us") false true])))
            false (Some C1_message) (Some (lit "ann@c.us")) None None)
         0)
  = [QueryAdmin; DeleteForEveryone].
Proof. vm_compute. reflexivity. Qed.

(** * Further properties of the code *)

(** ** The extraction of the JSON region (line 303) *)

Lemma dropUntil_notin (c : N) (a s : jsstring) :
  ~ In c a -> dropUntil c (a ++ s) = dropUntil c s.
Proof.
  induction a as [|x a IH]; intros Hn; [reflexivity|].
  cbn [app dropUntil]. destruct (N.eqb_spec x c) as [->|_].
  - exfalso. apply Hn. now left.
  - apply IH. intros Hin. apply Hn. now right.
Qed.

Lemma dropUntil_absent (c : N) (s : jsstring) : ~ In c s -> dropUntil c s = [].
Proof.
  intros Hn. rewrite <- (app_nil_r s). now rewrite dropUntil_notin.
Qed.

Lemma dropUntil_present (c : N) (s b : jsstring) :
  In c s -> dropUntil c (s ++ b) = dropUntil c s ++ b.
Proof.
  induction s as [|x s IH]; intros Hin; [destruct Hin|].
  cbn [app dropUntil]. destruct (N.eqb_spec x c) as [->|Hne]; [reflexivity|].
  apply IH. destruct Hin as [Heq|Hin]; [congruence | exact Hin].
Qed.

(** [dropUntil] cuts [s] before the first [c]. *)
Lemma dropUntil_split (c : N) (s : jsstring) :
  exists before,
    s = before ++ dropUntil c s /\ ~ In c before
    /\ (dropUntil c s = [] \/ exists t, dropUntil c s = c :: t).
Proof.
  induction s as [|x s (before & Hs & Hn & Hd)].
  - exists []. repeat split; auto.
  - cbn [dropUntil]. destruct (N.eqb_spec x c) as [->|Hne].
    + exists []. repeat split; eauto.
    + exists (x :: before). cbn [app]. rewrite <- Hs. repeat split; auto.
      intros [Heq|Hin]; [congruence | contradiction].
Qed.

(** The prefix of [u] that ends at its last [c]. *)
Lemma keepThrough_split (c : N) (u : jsstring) :
  exists after,
    u = rev (dropUntil c (rev u)) ++ after /\ ~ In c after
    /\ (rev (dropUntil c (rev u)) = []
        \/ exists t, rev (dropUntil c (rev u)) = t ++ [c]).
Proof.
  destruct (dropUntil_split c (rev u)) as (before & Hs & Hn & Hd).
  exists (rev before). split; [|split].
  - rewrite <- rev_app_distr, <- Hs. now rewrite rev_involutive.
  - now rewrite <- in_rev.
  - destruct Hd as [->|[t ->]]; [now left|]. right. now exists (rev t).
Qed.

Lemma jsonMatch_of_span (before inner after : jsstring) :
  ~ In 123%N before -> ~ In 125%N after ->
  jsonMatch (before ++ (123%N :: inner ++ [125%N]) ++ after)
  = Some (123%N :: inner ++ [125%N]).
Proof.
  intros Hb Ha. unfold jsonMatch. rewrite dropUntil_notin by exact Hb.
  cbn [app dropUntil N.eqb Pos.eqb].
  change (123%N :: (inner ++ [125%N]) ++ after)
    with ((123%N :: inner ++ [125%N]) ++ after).
  rewrite rev_app_distr, dropUntil_notin by (now rewrite <- in_rev).
  replace (rev (123%N :: inner ++ [125%N])) with (125%N :: rev (123%N :: inner)).
  - cbn [dropUntil N.eqb Pos.eqb].
    change (125%N :: rev (123%N :: inner)) with (rev (rev [125%N]) ++ rev (123%N :: inner)).
    rewrite <- rev_app_distr, rev_involutive. reflexivity.
  - change (123%N :: inner ++ [125%N]) with ((123%N :: inner) ++ [125%N]).
    now rewrite rev_app_distr.
Qed.

(** X1: the region handed to [JSON.parse] runs from the first opening brace
    of the reply to its last closing brace; there is one exactly when some
    closing brace follows the first opening brace. *)
Theorem jsonMatch_span (content m : jsstring) :
  jsonMatch content = Some m <->
  exists before inner after,
    content = before ++ m ++ after
    /\ m = 123%N :: inner ++ [125%N]
    /\ ~ In 123%N before
    /\ ~ In 125%N after.
Proof.
  split.
  - unfold jsonMatch. intros Hm.
    destruct (dropUntil_split 123 content) as (before & Hs & Hb & Hd).
    destruct (keepThrough_split 125 (dropUntil 123 content))
      as (after & Hu & Ha & Hk).
    remember (rev (dropUntil 125 (rev (dropUntil 123 content)))) as k eqn:Ek.
    destruct k as [|x k]; [discriminate|]. injection Hm as <-.
    destruct Hk as [Hk|[t Ht]]; [discriminate|].
    destruct Hd as [Hd|[t' Hd]]; [rewrite Hd in Hu; discriminate|].
    assert (x = 123%N) as -> by (rewrite Hd in Hu; now injection Hu).
    destruct t as [|y t]; [discriminate|]. injection Ht as <- ->.
    exists before, t, after. repeat split; auto.
    rewrite Hs at 1. now rewrite Hu at 1.
  - intros (before & inner & after & -> & -> & Hb & Ha).
    now apply jsonMatch_of_span.
Qed.

Lemma existsb_eqb_false (c : N) (s : jsstring) :
  existsb (N.eqb c) s = false -> ~ In c s.
Proof.
  intros He Hin.
  assert (existsb (N.eqb c) s = true) as Ht; [|congruence].
  apply existsb_exists. exists c. split; [exact Hin | apply N.eqb_refl].
Qed.

Lemma jsonMatch_wrapped (a s b : jsstring) :
  ~ In 123%N a -> ~ In 125%N b -> jsonMatch (a ++ s ++ b) = jsonMatch s.
Proof.
  intros Ha Hb. unfold jsonMatch. rewrite dropUntil_notin by exact Ha.
  destruct (in_dec N.eq_dec 123%N s) as [Hin|Hout].
  - rewrite dropUntil_present by exact Hin.
    rewrite rev_app_distr, dropUntil_notin by (now rewrite <- in_rev). reflexivity.
  - rewrite (dropUntil_absent 123 s) by exact Hout. cbn [rev dropUntil].
    rewrite dropUntil_notin by exact Hout.
    destruct (dropUntil_split 123 b) as (pre & Hs & _).
    rewrite dropUntil_absent; [reflexivity|].
    rewrite <- in_rev. intros Hin. apply Hb. rewrite Hs.
    apply in_or_app. now right.
Qed.

(** X2: text around the JSON object does not change the verdict, provided
    what precedes it holds no opening brace and what follows it holds no
    closing brace (prose, a Markdown fence, white space). *)
Theorem parseReply_ignores_wrapper `{JSHost} (before reply after : jsstring) :
  existsb (N.eqb 123) before = false ->
  existsb (N.eqb 125) after = false ->
  parseReply (before ++ reply ++ after) = parseReply reply.
Proof.
  intros Hb Ha. unfold parseReply.
  rewrite jsonMatch_wrapped by (apply existsb_eqb_false; assumption).
  reflexivity.
Qed.

(** X2 on a reply inside a Markdown fence. *)
Lemma parseReply_ignores_wrapper_witness :
  @parseReply refHost (lit "```json " ++ C5_reply_70 ++ lit " ``` Hope this helps.")
  = @parseReply refHost C5_reply_70.
Proof.
  apply (@parseReply_ignores_wrapper refHost); reflexivity.
Defined.

(** X3: a reply that parses to an object is never reported as spam when the
    object has no [isSpam] member, or when its [confidence] member is
    missing, [null] or a boolean, whatever the other members say. *)
Theorem parseReply_missing_fields `{JSHost} (content text : jsstring)
    (props : list (jsstring * jsval)) :
  jsonMatch content = Some text ->
  JSON_parse text = Some (JObj props) ->
  lookup (lit "isSpam") props = None
  \/ lookup (lit "confidence") props = None
  \/ lookup (lit "confidence") props = Some JNull
  \/ (exists b, lookup (lit "confidence") props = Some (JBool b)) ->
  truthy (isSpam (parseReply content)) = false.
Proof.
  intros Hm Hp Hcases.
  assert (forall key,
            getField (JObj props) key
            = Some (match lookup key props with Some v => v | None => JUndefined end))
    as Hg.
  { intros key. cbn [getField]. now destruct (lookup key props). }
  rewrite (parseReply_parsed _ _ _ _ _ _ Hm Hp (Hg _) (Hg _) (Hg _)).
  destruct Hcases as [Ei|Hc].
  - rewrite Ei. reflexivity.
  - assert (js_ge (match lookup (lit "confidence") props with
                   | Some v => v
                   | None => JUndefined
                   end) 70%Z = Some false) as Hlow.
    { destruct Hc as [Ec|[Ec|[b Ec]]]; rewrite Ec; [reflexivity | reflexivity |].
      now destruct b. }
    rewrite Hlow.
    destruct (truthy (match lookup (lit "isSpam") props with
                      | Some v => v
                      | None => JUndefined
                      end)) eqn:T; [reflexivity | exact T].
Qed.

(** X3 on a reply that gives a confidence and no [isSpam]. *)
Lemma parseReply_missing_fields_witness :
  truthy (isSpam (@parseReply refHost (litq "{'confidence': 99, 'reason': 'scam'}")))
  = false.
Proof.
  apply (@parseReply_missing_fields refHost
           (litq "{'confidence': 99, 'reason': 'scam'}")
           (litq "{'confidence': 99, 'reason': 'scam'}")
           [(lit "confidence", num 99); (lit "reason", str "scam")]).
  - vm_compute. reflexivity.
  - vm_compute. reflexivity.
  - left. vm_compute. reflexivity.
Defined.

(** ** The rule engine: which rule fires *)

Lemma num_inj (a b : Z) : num a = num b -> a = b.
Proof. unfold num, inject_Z. now intros [= ->]. Qed.

Lemma find_existsb {A : Type} (f : A -> bool) (l : list A) :
  existsb f l = match find f l with Some _ => true | None => false end.
Proof.
  induction l as [|x l IH]; [reflexivity|]. simpl. now destruct (f x).
Qed.

(** Splits a conjunction of equivalences into its implications. *)
Ltac split_all :=
  repeat match goal with
         | |- _ /\ _ => split
         | |- _ <-> _ => split
         end.

(** X4: the confidence tells which rule fired.  95: some high-confidence
    phrase occurs.  Otherwise 90: an invite link and at least two matched
    terms; 75: an invite link and exactly one; 80: no invite link and at
    least three; 0: no matched term, or no invite link and at most two. *)
Theorem detect_decision_table `{JSHost} (message : jsstring) :
  let v := detectSpamGroupInvite message in
  let phrase :=
    existsb (fun p => includes (toLowerCase message) p)
            SPAM_PATTERNS.highConfidenceSpam in
  let n := length (matchedKeywords (toLowerCase message)) in
  (confidence v = num 95 <-> phrase = true)
  /\ (confidence v = num 90 <->
      phrase = false /\ containsInviteLink message /\ 2 <= n)
  /\ (confidence v = num 75 <->
      phrase = false /\ containsInviteLink message /\ n = 1)
  /\ (confidence v = num 80 <->
      phrase = false /\ ~ containsInviteLink message /\ 3 <= n)
  /\ (confidence v = num 0 <->
      phrase = false /\ (n = 0 \/ (~ containsInviteLink message /\ n <= 2))).
Proof.
  intros v phrase n. subst v phrase. rewrite find_existsb.
  rewrite <- testGroupInvite_spec.
  destruct (find (fun p => includes (toLowerCase message) p)
                 SPAM_PATTERNS.highConfidenceSpam) as [p|] eqn:E.
  - rewrite (detect_highConfidence _ _ E). cbn [confidence].
    split_all; intros Hc;
      try (apply num_inj in Hc; discriminate Hc);
      try (apply proj1 in Hc; discriminate Hc); reflexivity.
  - rewrite (detect_noHighConfidence _ E). fold n.
    destruct (fst (testGroupInvite 0 message));
      destruct (Nat.leb_spec 2 n); destruct (Nat.eqb_spec n 1);
      destruct (Nat.leb_spec 3 n); cbn [andb confidence];
      split_all; intros Hc;
      try (apply num_inj in Hc; discriminate Hc);
      try discriminate Hc;
      try reflexivity; try lia;
      try (destruct Hc as (_ & Hl & Hn); first [discriminate Hl | lia | now contradiction Hl]);
      try (destruct Hc as (_ & [Hn | [Hl Hn]]); first [lia | now contradiction Hl]);
      try (right; split; [discriminate | lia]);
      try (left; lia).
Qed.

(** ** The rule engine: padding a message *)

Lemma filter_length_le {A : Type} (f g : A -> bool) (l : list A) :
  (forall x, f x = true -> g x = true) ->
  length (filter f l) <= length (filter g l).
Proof.
  intros Hfg. induction l as [|x l IH]; [reflexivity|]. simpl.
  destruct (f x) eqn:Fx.
  - rewrite (Hfg x Fx). simpl. lia.
  - destruct (g x); simpl; lia.
Qed.

Lemma includes_padded (s t before after : jsstring) :
  includes s t = true -> includes (before ++ s ++ after) t = true.
Proof.
  rewrite !includes_spec. intros (a & b & ->).
  exists (before ++ a), (b ++ after). now rewrite <- !app_assoc.
Qed.

Lemma containsInviteLink_padded (s before after : jsstring) :
  containsInviteLink s -> containsInviteLink (before ++ s ++ after).
Proof.
  intros (a & link & code & b & -> & Hl & Hc & Hf).
  exists (before ++ a), link, code, (b ++ after).
  repeat split; auto. now rewrite <- !app_assoc.
Qed.

(** The three vocabulary rules only move up when a link appears or the
    number of matched terms grows. *)
Lemma rule_table_monotone (h h' : bool) (n n' : nat)
    (r90 r75 r80 r0 r90' r75' r80' r0' : jsval) :
  (h = true -> h' = true) -> n <= n' ->
  exists z z' : Z,
    confidence
      (if h && (2 <=? n) then mkVerdict (JBool true) (num 90) r90
       else if h && (n =? 1) then mkVerdict (JBool true) (num 75) r75
       else if 3 <=? n then mkVerdict (JBool true) (num 80) r80
       else mkVerdict (JBool false) (num 0) r0) = num z
    /\ confidence
         (if h' && (2 <=? n') then mkVerdict (JBool true) (num 90) r90'
          else if h' && (n' =? 1) then mkVerdict (JBool true) (num 75) r75'
          else if 3 <=? n' then mkVerdict (JBool true) (num 80) r80'
          else mkVerdict (JBool false) (num 0) r0') = num z'
    /\ (z <= z')%Z
    /\ (truthy (isSpam
                  (if h && (2 <=? n) then mkVerdict (JBool true) (num 90) r90
                   else if h && (n =? 1) then mkVerdict (JBool true) (num 75) r75
                   else if 3 <=? n then mkVerdict (JBool true) (num 80) r80
                   else mkVerdict (JBool false) (num 0) r0)) = true ->
        truthy (isSpam
                  (if h' && (2 <=? n') then mkVerdict (JBool true) (num 90) r90'
                   else if h' && (n' =? 1) then mkVerdict (JBool true) (num 75) r75'
                   else if 3 <=? n' then mkVerdict (JBool true) (num 80) r80'
                   else mkVerdict (JBool false) (num 0) r0')) = true).
Proof.
  intros Hh Hn.
  destruct h; [rewrite (Hh eq_refl) | destruct h'];
    destruct (Nat.leb_spec 2 n); destruct (Nat.eqb_spec n 1);
    destruct (Nat.leb_spec 3 n); try lia;
    destruct (Nat.leb_spec 2 n'); destruct (Nat.eqb_spec n' 1);
    destruct (Nat.leb_spec 3 n'); try lia;
    cbn [andb confidence isSpam truthy];
    eexists; eexists; (split; [reflexivity|]); (split; [reflexivity|]);
    (split; [lia | auto]).
Qed.

(** The condition of X5 holds of a host that lowercases the two strings as
    ASCII folding does. *)
Lemma lowercasedInside_ascii `{JSHost} (before message after : jsstring) :
  toLowerCase (before ++ message ++ after)
    = refToLowerCase (before ++ message ++ after) ->
  toLowerCase message = refToLowerCase message ->
  lowercasedInside before message after.
Proof.
  intros Hp Hm. exists (refToLowerCase before), (refToLowerCase after).
  rewrite Hp, Hm. unfold refToLowerCase. now rewrite !map_app.
Qed.

(** X5: when the lowercased form of a message occurs inside the lowercased
    form of the message with text put before and after it (as on ASCII
    text), that text never lowers the confidence the rule engine gives; in
    particular a message flagged as spam stays flagged. *)
Theorem detect_padding_monotone `{JSHost} (before message after : jsstring) :
  lowercasedInside before message after ->
  exists z z' : Z,
    confidence (detectSpamGroupInvite message) = num z
    /\ confidence (detectSpamGroupInvite (before ++ message ++ after)) = num z'
    /\ (z <= z')%Z
    /\ (truthy (isSpam (detectSpamGroupInvite message)) = true ->
        truthy (isSpam (detectSpamGroupInvite (before ++ message ++ after))) = true).
Proof.
  intros (pre & post & Hpw).
  assert (forall t, includes (toLowerCase message) t = true ->
                    includes (toLowerCase (before ++ message ++ after)) t = true)
    as Hinc.
  { intros t Ht. rewrite Hpw. now apply includes_padded. }
  pose proof (filter_length_le
                (fun k => includes (toLowerCase message) (toLowerCase k))
                (fun k => includes (toLowerCase (before ++ message ++ after))
                            (toLowerCase k))
                SPAM_PATTERNS.spamGroupKeywords
                (fun k => Hinc (toLowerCase k))) as Hlen.
  pose proof (containsInviteLink_padded message before after) as Hlink.
  rewrite <- !testGroupInvite_spec in Hlink.
  destruct (find (fun p => includes (toLowerCase (before ++ message ++ after)) p)
                 SPAM_PATTERNS.highConfidenceSpam) as [p'|] eqn:E'.
  - rewrite (detect_highConfidence _ _ E'). cbn [confidence isSpam truthy].
    destruct (detect_confidence message) as (z & Hz & Hc).
    exists z, 95%Z. repeat split; auto.
    cbn [In] in Hz. lia.
  - assert (find (fun p => includes (toLowerCase message) p)
                 SPAM_PATTERNS.highConfidenceSpam = None) as E.
    { destruct (find (fun p => includes (toLowerCase message) p)
                     SPAM_PATTERNS.highConfidenceSpam) as [p|] eqn:E; [|reflexivity].
      apply find_some in E. destruct E as [Hin Hp].
      pose proof (find_none _ _ E' _ Hin) as Hno. cbn beta in Hno.
      rewrite (Hinc _ Hp) in Hno. discriminate. }
    rewrite (detect_noHighConfidence _ E), (detect_noHighConfidence _ E').
    apply rule_table_monotone; [exact Hlink | exact Hlen].
Qed.

(** X5 on the reference host, a flagged message inside a longer one. *)
Lemma detect_padding_monotone_witness :
  exists z z' : Z,
    confidence (@detectSpamGroupInvite refHost C2_message) = num z
    /\ confidence (@detectSpamGroupInvite refHost
                     (lit "Hi all! " ++ C2_message ++ lit " See you there."))
       = num z'
    /\ (z <= z')%Z
    /\ (truthy (isSpam (@detectSpamGroupInvite refHost C2_message)) = true ->
        truthy (isSpam (@detectSpamGroupInvite refHost
                          (lit "Hi all! " ++ C2_message ++ lit " See you there.")))
        = true).
Proof.
  apply (@detect_padding_monotone refHost).
  exists (refToLowerCase (lit "Hi all! ")), (refToLowerCase (lit " See you there.")).
  vm_compute. reflexivity.
Defined.

(** ** The rule engine: the state of the regex object *)

Lemma detectSpamGroupInvite_at_state `{JSHost} (lastIndex : nat) (message : jsstring) :
  snd (detectSpamGroupInvite_at lastIndex message) = 0.
Proof.
  unfold detectSpamGroupInvite_at, testGroupInvite.
  now destruct (SPAM_PATTERNS.groupInviteRegex_test lastIndex message).
Qed.

Lemma detectSpamGroupInvite_at_zero `{JSHost} (message : jsstring) :
  detectSpamGroupInvite_at 0 message = (detectSpamGroupInvite message, 0).
Proof.
  unfold detectSpamGroupInvite_at, detectSpamGroupInvite, testGroupInvite.
  now destruct (SPAM_PATTERNS.groupInviteRegex_test 0 message).
Qed.

(** X6: the shared regex object carries nothing from one call to the next.
    Whatever its [lastIndex] before a sequence of calls, it is 0 after the
    first, so every later verdict is the one the message gets on its own;
    from the initial state every verdict is. *)
Theorem detectEach_no_history `{JSHost} (lastIndex : nat)
    (first : jsstring) (rest : list jsstring) :
  detectEach lastIndex (first :: rest)
  = (fst (detectSpamGroupInvite_at lastIndex first)
       :: map detectSpamGroupInvite rest, 0)
  /\ detectEach 0 (first :: rest)
     = (map detectSpamGroupInvite (first :: rest), 0).
Proof.
  assert (forall ms, detectEach 0 ms = (map detectSpamGroupInvite ms, 0)) as Hzero.
  { induction ms as [|m ms IH]; [reflexivity|].
    cbn [detectEach map]. rewrite detectSpamGroupInvite_at_zero, IH. reflexivity. }
  split; [|apply Hzero].
  cbn [detectEach].
  pose proof (detectSpamGroupInvite_at_state lastIndex first) as Hs.
  destruct (detectSpamGroupInvite_at lastIndex first) as [v li].
  cbn [snd fst] in *. subst li. now rewrite Hzero.
Qed.

(** ** The rate limit over any sequence of calls and ticks *)

Lemma grantedCalls_cons (a : option bool) (answers : list (option bool)) :
  grantedCalls (a :: answers)
  = (match a with Some true => 1 | _ => 0 end) + grantedCalls answers.
Proof. unfold grantedCalls. simpl. now destruct a as [[|]|]. Qed.

Lemma gateRun_budget (es : list GateEvent) (c : nat) :
  c <= MAX_CHECKS_PER_MINUTE ->
  grantedCalls (fst (gateRun c es)) + c
  <= MAX_CHECKS_PER_MINUTE * S (ticks es).
Proof.
  revert c. induction es as [|e es IH]; intros c Hc.
  - cbn [gateRun fst grantedCalls filter length ticks].
    unfold MAX_CHECKS_PER_MINUTE in *. lia.
  - cbn [gateRun]. destruct e; cbn [gateStep].
    + unfold tryAdmit.
      destruct (Nat.leb_spec MAX_CHECKS_PER_MINUTE c) as [Hge|Hlt].
      * specialize (IH c Hc). destruct (gateRun c es) as [rs c'].
        cbn [fst] in *. rewrite grantedCalls_cons.
        change (ticks (Call :: es)) with (ticks es).
        unfold MAX_CHECKS_PER_MINUTE in *. lia.
      * specialize (IH (S c) Hlt). destruct (gateRun (S c) es) as [rs c'].
        cbn [fst] in *. rewrite grantedCalls_cons.
        change (ticks (Call :: es)) with (ticks es).
        unfold MAX_CHECKS_PER_MINUTE in *. lia.
    + unfold resetWindow. specialize (IH 0 (Nat.le_0_l _)).
      destruct (gateRun 0 es) as [rs c']. cbn [fst] in *.
      rewrite grantedCalls_cons.
      change (ticks (Tick :: es)) with (S (ticks es)).
      unfold MAX_CHECKS_PER_MINUTE in *. lia.
Qed.

(** X7: over any sequence of calls and timer ticks that starts with a fresh
    counter, the gate lets through at most 30 calls per window: at most
    [30 * (ticks + 1)] in all. *)
Theorem gate_budget (es : list GateEvent) :
  grantedCalls (fst (gateRun 0 es)) <= 30 * (ticks es + 1).
Proof.
  pose proof (gateRun_budget es 0 (Nat.le_0_l _)) as Hb.
  change MAX_CHECKS_PER_MINUTE with 30 in Hb. lia.
Qed.

(** ** The orchestrator: the counter and the sources of a spam verdict *)

(** X8: one classification raises the counter by one exactly when no
    keyword matches, the rule engine finds nothing, the AI stage is enabled
    with some client present and the counter is below 30; on every other
    path the counter is left as it was.  A counter within the ceiling stays
    within it. *)
Theorem isSpamMessage_counter `{JSHost} (CONFIG : Config) (clients : Clients)
    (message senderName groupName : jsstring) (checks : nat) :
  let after := snd (isSpamMessage CONFIG clients message senderName groupName checks) in
  (after = S checks <->
     find (fun keyword => includes (toLowerCase message) (toLowerCase keyword))
          (customSpamKeywords CONFIG) = None
     /\ truthy (isSpam (detectSpamGroupInvite message)) = false
     /\ useAI CONFIG = true
     /\ isNull (anthropic clients) && isNull (gemini clients) = false
     /\ checks < 30)
  /\ (after = checks \/ after = S checks)
  /\ (checks <= 30 -> after <= 30).
Proof.
  intros after. subst after. unfold isSpamMessage.
  destruct (find _ (customSpamKeywords CONFIG)) as [kw|];
    [cbn [snd]; split_all; intros; try lia; try tauto;
     match goal with Hc : _ /\ _ |- _ => destruct Hc as [Hc _]; discriminate Hc end|].
  destruct (truthy (isSpam (detectSpamGroupInvite message)));
    [cbn [snd]; split_all; intros; try lia; try tauto;
     match goal with Hc : _ /\ _ |- _ => destruct Hc as (_ & Hc & _); discriminate Hc end|].
  destruct (useAI CONFIG);
    [|cbn [negb orb snd]; split_all; intros; try lia; try tauto;
      match goal with Hc : _ /\ _ |- _ => destruct Hc as (_ & _ & Hc & _); discriminate Hc end].
  destruct (isNull (anthropic clients) && isNull (gemini clients));
    [cbn [negb orb snd]; split_all; intros; try lia; try tauto;
     match goal with Hc : _ /\ _ |- _ => destruct Hc as (_ & _ & _ & Hc & _); discriminate Hc end|].
  cbn [negb orb]. unfold tryAdmit.
  destruct (Nat.leb_spec MAX_CHECKS_PER_MINUTE checks) as [Hge|Hlt];
    unfold MAX_CHECKS_PER_MINUTE in *; cbn [snd];
    split_all; intros; try lia; try tauto;
    try (repeat split; auto; lia).
Qed.

(** X9: a verdict that is spam has one of three sources: a configured
    keyword occurring in the message (confidence 100), the rule engine, or a
    provider reply that was obtained within the budget and parsed.  The
    rate-limited verdict and the two error verdicts are never spam. *)
Theorem isSpamMessage_spam_sources `{JSHost} (CONFIG : Config) (clients : Clients)
    (message senderName groupName : jsstring) (checks : nat) :
  let v := fst (isSpamMessage CONFIG clients message senderName groupName checks) in
  truthy (isSpam v) = true ->
  (exists keyword,
      In keyword (customSpamKeywords CONFIG)
      /\ includes (toLowerCase message) (toLowerCase keyword) = true
      /\ v = mkVerdict (JBool true) (num 100)
               (JStr (lit "Contains blocked keyword: " ++ keyword)))
  \/ (v = detectSpamGroupInvite message
      /\ exists z, In z [75; 80; 90; 95]%Z /\ confidence v = num z)
  \/ (exists call content,
        useAI CONFIG = true
        /\ checks < 30
        /\ selectClient CONFIG clients = Some call
        /\ call message senderName groupName = Text content
        /\ v = parseReply content
        /\ v <> parseError).
Proof.
  intros v. subst v. unfold isSpamMessage.
  destruct (find (fun keyword => includes (toLowerCase message) (toLowerCase keyword))
                 (customSpamKeywords CONFIG)) as [kw|] eqn:Ek.
  - intros _. left. exists kw. apply find_some in Ek. cbn [fst]. tauto.
  - assert (truthy (isSpam (detectSpamGroupInvite message)) = true ->
            exists z, In z [75; 80; 90; 95]%Z
                      /\ confidence (detectSpamGroupInvite message) = num z) as Hrule.
    { detect_cases message; cbn [isSpam truthy confidence]; intros Ht;
        try discriminate Ht; eexists; (split; [|reflexivity]); cbn [In]; tauto. }
    destruct (truthy (isSpam (detectSpamGroupInvite message))) eqn:Tr.
    + intros _. right. left. cbn [fst]. auto.
    + destruct (useAI CONFIG) eqn:Eu;
        [|cbn [negb orb fst]; intros Ht; congruence].
      destruct (isNull (anthropic clients) && isNull (gemini clients));
        [cbn [negb orb fst]; intros Ht; congruence|].
      cbn [negb orb]. unfold tryAdmit.
      destruct (Nat.leb_spec MAX_CHECKS_PER_MINUTE checks) as [Hge|Hlt];
        [cbn [fst]; intros Ht; discriminate Ht|].
      cbn [fst]. unfold aiDetect.
      destruct (selectClient CONFIG clients) as [call|] eqn:Es;
        [|intros Ht; congruence].
      destruct (call message senderName groupName) as [|content] eqn:Ec;
        [intros Ht; discriminate Ht|].
      intros Ht. right. right. exists call, content.
      repeat split; auto. intros Hp. rewrite Hp in Ht. discriminate Ht.
Qed.

(** X9 on a reply obtained from the client of the sample configuration. *)
Lemma isSpamMessage_spam_sources_witness :
  let v := fst (@isSpamMessage refHost C8_config C8_clients (lit "hello everyone")
                  (lit "Ann") (lit "Family") 3) in
  (exists keyword,
      In keyword (customSpamKeywords C8_config)
      /\ includes (refToLowerCase (lit "hello everyone")) (refToLowerCase keyword) = true
      /\ v = mkVerdict (JBool true) (num 100)
               (JStr (lit "Contains blocked keyword: " ++ keyword)))
  \/ (v = @detectSpamGroupInvite refHost (lit "hello everyone")
      /\ exists z, In z [75; 80; 90; 95]%Z /\ confidence v = num z)
  \/ (exists call content,
        useAI C8_config = true
        /\ 3 < 30
        /\ selectClient C8_config C8_clients = Some call
        /\ call (lit "hello everyone") (lit "Ann") (lit "Family") = Text content
        /\ v = @parseReply refHost content
        /\ v <> parseError).
Proof.
  apply (@isSpamMessage_spam_sources refHost C8_config C8_clients
           (lit "hello everyone") (lit "Ann") (lit "Family") 3).
  vm_compute. reflexivity.
Defined.

(** ** Start-up *)

Lemma getActiveProvider_key `{JSHost} (env : Env) :
  (getActiveProvider env = Some ProviderAnthropic -> hasAnthropicKey env = true)
  /\ (getActiveProvider env = Some ProviderGemini -> hasGeminiKey env = true).
Proof.
  unfold getActiveProvider.
  destruct (jsstring_eqb (AI_PROVIDER env) (lit "anthropic"));
    destruct (jsstring_eqb (AI_PROVIDER env) (lit "gemini"));
    destruct (jsstring_eqb (AI_PROVIDER env) (lit "auto"));
    destruct (hasAnthropicKey env); destruct (hasGeminiKey env);
    cbn [andb]; split; intros Hp; try reflexivity; discriminate Hp.
Qed.

(** X10: the provider chosen at start-up always has its key.  With no
    preference ("auto") Anthropic is chosen whenever its key is present,
    also when both are; a preference for a provider whose key is missing
    disables the AI stage even when the other key is present; so does a
    name that is none of the three. *)
Theorem getActiveProvider_choice `{JSHost} (env : Env) :
  (getActiveProvider env = Some ProviderAnthropic -> hasAnthropicKey env = true)
  /\ (getActiveProvider env = Some ProviderGemini -> hasGeminiKey env = true)
  /\ (AI_PROVIDER env = lit "auto" -> hasAnthropicKey env = true ->
      getActiveProvider env = Some ProviderAnthropic)
  /\ (AI_PROVIDER env = lit "auto" -> hasAnthropicKey env = false ->
      hasGeminiKey env = true -> getActiveProvider env = Some ProviderGemini)
  /\ (AI_PROVIDER env = lit "anthropic" -> hasAnthropicKey env = false ->
      getActiveProvider env = None)
  /\ (AI_PROVIDER env = lit "gemini" -> hasGeminiKey env = false ->
      getActiveProvider env = None)
  /\ (AI_PROVIDER env <> lit "anthropic" -> AI_PROVIDER env <> lit "gemini" ->
      AI_PROVIDER env <> lit "auto" -> getActiveProvider env = None).
Proof.
  destruct (getActiveProvider_key env) as [Ha Hg].
  split; [exact Ha|]. split; [exact Hg|]. unfold getActiveProvider.
  split; [intros -> ->; reflexivity|].
  split; [intros -> -> ->; reflexivity|].
  split; [intros -> ->; reflexivity|].
  split; [intros -> Hk; rewrite Hk; reflexivity|].
  intros Hna Hng Hnu.
  destruct (jsstring_eqb (AI_PROVIDER env) (lit "anthropic")) eqn:Ea;
    [apply jsstring_eqb_eq in Ea; contradiction|].
  destruct (jsstring_eqb (AI_PROVIDER env) (lit "gemini")) eqn:Eg;
    [apply jsstring_eqb_eq in Eg; contradiction|].
  destruct (jsstring_eqb (AI_PROVIDER env) (lit "auto")) eqn:Eu;
    [apply jsstring_eqb_eq in Eu; contradiction|].
  reflexivity.
Qed.

(** With the configuration and the clients of one environment, an enabled AI
    stage has the client of the chosen provider. *)
Lemma startup_selectClient `{JSHost} (env : Env) (sdkAnthropic sdkGemini : Client) :
  useAI (makeConfig env) = true ->
  exists call,
    selectClient (makeConfig env) (initClients env sdkAnthropic sdkGemini) = Some call
    /\ (call = sdkAnthropic /\ getActiveProvider env = Some ProviderAnthropic
        \/ call = sdkGemini /\ getActiveProvider env = Some ProviderGemini).
Proof.
  destruct (getActiveProvider_key env) as [Ha Hg].
  unfold selectClient, initClients, makeConfig, hasAnthropicKey, hasGeminiKey in *.
  cbn [useAI aiProvider anthropic gemini].
  destruct (getActiveProvider env) as [[|]|].
  - intros _. rewrite (Ha eq_refl). exists sdkAnthropic. auto.
  - intros _. rewrite (Hg eq_refl). exists sdkGemini. auto.
  - cbn [isNull negb]. rewrite andb_false_r. discriminate.
Qed.

(** The four ways a classification ends. *)
Lemma isSpamMessage_paths `{JSHost} (CONFIG : Config) (clients : Clients)
    (message senderName groupName : jsstring) (checks : nat) :
  (exists keyword,
      isSpamMessage CONFIG clients message senderName groupName checks
      = (mkVerdict (JBool true) (num 100)
           (JStr (lit "Contains blocked keyword: " ++ keyword)), checks))
  \/ isSpamMessage CONFIG clients message senderName groupName checks
     = (detectSpamGroupInvite message, checks)
  \/ (isSpamMessage CONFIG clients message senderName groupName checks
      = (rateLimited, checks)
      /\ useAI CONFIG = true)
  \/ (isSpamMessage CONFIG clients message senderName groupName checks
      = (aiDetect CONFIG clients message senderName groupName
           (detectSpamGroupInvite message), S checks)
      /\ useAI CONFIG = true
      /\ isNull (anthropic clients) && isNull (gemini clients) = false).
Proof.
  unfold isSpamMessage.
  destruct (find _ (customSpamKeywords CONFIG)) as [kw|]; [left; now exists kw|].
  destruct (truthy (isSpam (detectSpamGroupInvite message))); [now right; left|].
  destruct (useAI CONFIG); [|now right; left].
  destruct (isNull (anthropic clients) && isNull (gemini clients)); [now right; left|].
  cbn [negb orb]. unfold tryAdmit.
  destruct (MAX_CHECKS_PER_MINUTE <=? checks); [right; right; left | right; right; right];
    auto.
Qed.

(** X11: with the configuration and the clients built from one environment,
    every check counted against the budget is a call of the chosen
    provider: when the counter goes up, the verdict is the error verdict if
    the call threw and the verdict of the parsed reply otherwise. *)
Theorem startup_counted_check_is_a_call `{JSHost} (env : Env)
    (sdkAnthropic sdkGemini : Client)
    (message senderName groupName : jsstring) (checks : nat) :
  let CONFIG := makeConfig env in
  let clients := initClients env sdkAnthropic sdkGemini in
  snd (isSpamMessage CONFIG clients message senderName groupName checks) = S checks ->
  exists call,
    selectClient CONFIG clients = Some call
    /\ (call = sdkAnthropic /\ getActiveProvider env = Some ProviderAnthropic
        \/ call = sdkGemini /\ getActiveProvider env = Some ProviderGemini)
    /\ fst (isSpamMessage CONFIG clients message senderName groupName checks)
       = match call message senderName groupName with
         | Throws => apiError
         | Text content => parseReply content
         end.
Proof.
  intros CONFIG clients Hs. subst CONFIG clients.
  destruct (isSpamMessage_paths (makeConfig env)
              (initClients env sdkAnthropic sdkGemini)
              message senderName groupName checks)
    as [[kw E]|[E|[[E _]|(E & Hu & _)]]]; rewrite E in Hs |- *; cbn [snd fst] in *;
    try (exfalso; lia).
  destruct (startup_selectClient env sdkAnthropic sdkGemini Hu) as (call & Hc & Hw).
  exists call. split; [exact Hc|]. split; [exact Hw|].
  unfold aiDetect. rewrite Hc. reflexivity.
Qed.

(** X11 on an environment with both keys and a client that answers. *)
Lemma startup_counted_check_is_a_call_witness :
  exists call,
    selectClient (@makeConfig refHost env_both_keys)
      (@initClients refHost env_both_keys
         (fun _ _ _ => Text C5_reply_70) (fun _ _ _ => Throws))
    = Some call
    /\ (call = (fun _ _ _ => Text C5_reply_70)
        /\ @getActiveProvider refHost env_both_keys = Some ProviderAnthropic
        \/ call = (fun _ _ _ => Throws)
           /\ @getActiveProvider refHost env_both_keys = Some ProviderGemini)
    /\ fst (@isSpamMessage refHost (@makeConfig refHost env_both_keys)
              (@initClients refHost env_both_keys
                 (fun _ _ _ => Text C5_reply_70) (fun _ _ _ => Throws))
              (lit "hello everyone") (lit "Ann") (lit "Family") 0)
       = match call (lit "hello everyone") (lit "Ann") (lit "Family") with
         | Throws => apiError
         | Text content => @parseReply refHost content
         end.
Proof.
  apply (@startup_counted_check_is_a_call refHost env_both_keys
           (fun _ _ _ => Text C5_reply_70) (fun _ _ _ => Throws)
           (lit "hello everyone") (lit "Ann") (lit "Family") 0).
  vm_compute. reflexivity.
Defined.

Example preference_without_its_key_disables_ai :
  @getActiveProvider refHost env_prefers_absent = None
  /\ useAI (@makeConfig refHost env_prefers_absent) = false
  /\ customSpamKeywords (@makeConfig refHost env_prefers_absent)
     = [lit "free"; lit "Discount"].
Proof. repeat split; vm_compute; reflexivity. Qed.

(** X12: when the environment holds neither key, or sets USE_AI to "false",
    a classification depends on the message alone: the verdict is the same
    for every sender, group, counter and pair of SDK clients, the counter is
    left as it was, and the confidence is one of 0, 75, 80, 90, 95, 100. *)
Theorem startup_without_ai `{JSHost} (env : Env)
    (sdkAnthropic sdkGemini sdkAnthropic' sdkGemini' : Client)
    (message senderName groupName senderName' groupName' : jsstring)
    (checks checks' : nat) :
  hasAnthropicKey env = false /\ hasGeminiKey env = false
  \/ env_USE_AI env = Some (lit "false") ->
  let CONFIG := makeConfig env in
  let result :=
    isSpamMessage CONFIG (initClients env sdkAnthropic sdkGemini)
      message senderName groupName checks in
  snd result = checks
  /\ fst result
     = fst (isSpamMessage CONFIG (initClients env sdkAnthropic' sdkGemini')
              message senderName' groupName' checks')
  /\ exists z, In z [0; 75; 80; 90; 95; 100]%Z /\ confidence (fst result) = num z.
Proof.
  intros Hoff CONFIG result. subst result CONFIG.
  assert (useAI (makeConfig env) = false) as Hu.
  { unfold makeConfig. cbn [useAI]. destruct Hoff as [[Ha Hg]|Hf].
    - destruct (getActiveProvider_key env) as [Ka Kg].
      destruct (getActiveProvider env) as [[|]|].
      + rewrite (Ka eq_refl) in Ha. discriminate.
      + rewrite (Kg eq_refl) in Hg. discriminate.
      + cbn [isNull negb]. apply andb_false_r.
    - rewrite Hf. reflexivity. }
  unfold isSpamMessage. rewrite Hu. cbn [negb orb].
  destruct (find _ (customSpamKeywords (makeConfig env))) as [kw|].
  - cbn [fst snd confidence]. repeat split. exists 100%Z. cbn [In]. tauto.
  - destruct (truthy (isSpam (detectSpamGroupInvite message)));
      cbn [fst snd]; repeat split;
      destruct (detect_confidence message) as (z & Hz & Hc);
      exists z; (split; [cbn [In] in *; tauto | exact Hc]).
Qed.

(** X12 on an environment that sets nothing. *)
Lemma startup_without_ai_witness :
  let result :=
    @isSpamMessage refHost (@makeConfig refHost
                              (mkEnv None None None None None None None))
      (@initClients refHost (mkEnv None None None None None None None)
         (fun _ _ _ => Text C5_reply_70) (fun _ _ _ => Throws))
      C2_message (lit "Ann") (lit "Family") 4 in
  snd result = 4
  /\ fst result
     = fst (@isSpamMessage refHost
              (@makeConfig refHost (mkEnv None None None None None None None))
              (@initClients refHost (mkEnv None None None None None None None)
                 (fun _ _ _ => Throws) (fun _ _ _ => Throws))
              C2_message (lit "Bob") (lit "Work") 30)
  /\ exists z, In z [0; 75; 80; 90; 95; 100]%Z /\ confidence (fst result) = num z.
Proof.
  apply (@startup_without_ai refHost (mkEnv None None None None None None None)).
  left. split; reflexivity.
Defined.

(** ** The comma-separated lists of the configuration *)

Lemma split_no_sep (sep : N) (k : jsstring) : ~ In sep k -> split sep k = [k].
Proof.
  induction k as [|c k IH]; intros Hn; [reflexivity|].
  cbn [split]. destruct (N.eqb_spec c sep) as [->|_].
  - exfalso. apply Hn. now left.
  - rewrite IH; [reflexivity|]. intros Hin. apply Hn. now right.
Qed.

Lemma split_app_sep (sep : N) (k rest : jsstring) :
  ~ In sep k -> split sep (k ++ sep :: rest) = k :: split sep rest.
Proof.
  induction k as [|c k IH]; intros Hn.
  - cbn [app split]. now rewrite N.eqb_refl.
  - cbn [app split]. destruct (N.eqb_spec c sep) as [->|_].
    + exfalso. apply Hn. now left.
    + rewrite IH; [reflexivity|]. intros Hin. apply Hn. now right.
Qed.

Lemma split_parts_no_sep (sep : N) (s : jsstring) (p : jsstring) :
  In p (split sep s) -> ~ In sep p.
Proof.
  revert p. induction s as [|c s IH]; intros p.
  - cbn. intros [<-|[]]. intros [].
  - cbn [split]. destruct (N.eqb_spec c sep) as [->|Hne].
    + intros [<-|Hin]; [intros [] | now apply IH].
    + destruct (split sep s) as [|q qs] eqn:E.
      * intros [<-|[]]. intros [Hc|[]]. congruence.
      * intros [<-|Hin].
        -- intros [Hc|Hin]; [congruence|]. apply (IH q); [now left | exact Hin].
        -- apply IH. now right.
Qed.

(** X13: keywords written as a comma-separated list are read back as they
    were, in order, provided none is empty and none holds a comma. *)
Theorem commaList_roundtrip (keywords : list jsstring) :
  Forall (fun k => k <> [] /\ ~ In 44%N k) keywords ->
  commaList (Some (join (lit ",") keywords)) = keywords.
Proof.
  unfold commaList, filterBoolean. change (lit ",") with [44%N].
  induction 1 as [|k ks [Hne Hnc] Hks IH]; [reflexivity|].
  destruct ks as [|k2 ks].
  - cbn [join]. rewrite split_no_sep by exact Hnc. cbn [filter].
    destruct k; [contradiction | reflexivity].
  - change (join [44%N] (k :: k2 :: ks))
      with (k ++ [44%N] ++ join [44%N] (k2 :: ks)).
    cbn [app]. rewrite split_app_sep by exact Hnc. cbn [filter].
    rewrite IH. destruct k; [contradiction | reflexivity].
Qed.

(** X13 on two keywords. *)
Lemma commaList_roundtrip_witness :
  commaList (Some (join (lit ",") [lit "free money"; lit "Discount"]))
  = [lit "free money"; lit "Discount"].
Proof.
  apply (commaList_roundtrip [lit "free money"; lit "Discount"]).
  repeat constructor; try discriminate;
    apply existsb_eqb_false; reflexivity.
Defined.

(** X14: whatever the environment holds, no configured keyword and no
    monitored group id is empty or holds a comma; so no keyword occurs in
    every message by being empty, and an unset or empty SPAM_KEYWORDS gives
    no keyword at all. *)
Theorem makeConfig_lists `{JSHost} (env : Env) :
  (forall k, In k (customSpamKeywords (makeConfig env)) -> k <> [] /\ ~ In 44%N k)
  /\ (forall g, In g (monitoredGroups (makeConfig env)) -> g <> [] /\ ~ In 44%N g)
  /\ (env_SPAM_KEYWORDS env = None \/ env_SPAM_KEYWORDS env = Some [] ->
      customSpamKeywords (makeConfig env) = [])
  /\ (forall message, includes message [] = true).
Proof.
  assert (forall x k, In k (commaList x) -> k <> [] /\ ~ In 44%N k) as Hl.
  { intros [s|] k; [|intros []]. unfold commaList, filterBoolean.
    rewrite filter_In. intros [Hin Hne]. split.
    - now destruct k.
    - exact (split_parts_no_sep 44 s k Hin). }
  split; [intros k; apply Hl|]. split; [intros g; apply Hl|].
  split.
  - intros [E|E]; unfold makeConfig; cbn [customSpamKeywords]; rewrite E; reflexivity.
  - intros message. apply includes_spec. now exists [], message.
Qed.

(** ** The message handler *)

(** X15: a message is dropped before any classification when its chat
    cannot be read, is not a group, or is outside a non-empty list of
    monitored groups, when the bot sent it, or when its text is missing or
    made of white space only: nothing is requested and the counter is left
    as it was. *)
Theorem handleMessage_prefilters `{JSHost} (CONFIG : Config) (clients : Clients)
    (botNumber : option jsstring) (message : Message) (checks : nat) :
  getChat message = None
  \/ (exists chat, getChat message = Some chat
        /\ (isGroup chat = false
            \/ (monitoredGroups CONFIG <> []
                /\ ~ In (chatId chat) (monitoredGroups CONFIG))))
  \/ fromMe message = true
  \/ body message = None
  \/ (exists text, body message = Some text /\ forallb isWhiteSpace text = true) ->
  handleMessage CONFIG clients botNumber message checks = ([], checks).
Proof.
  intros Hdrop.
  assert (accepted CONFIG message = None) as Ha; [|unfold handleMessage; now rewrite Ha].
  unfold accepted.
  destruct (getChat message) as [chat|] eqn:Ec; [|reflexivity].
  destruct (isGroup chat) eqn:Eg; [|reflexivity]. cbn [negb].
  destruct ((0 <? length (monitoredGroups CONFIG))
            && negb (existsb (jsstring_eqb (chatId chat)) (monitoredGroups CONFIG)))
    eqn:Em; [reflexivity|].
  destruct (fromMe message) eqn:Ef; [reflexivity|].
  destruct (body message) as [[|c text]|] eqn:Eb; try reflexivity.
  destruct (trim_is_empty (c :: text)) eqn:Et; [reflexivity|].
  exfalso.
  destruct Hdrop as [Hc|[(chat' & Hc & Hg)|[Hf|[Hb|(text' & Hb & Hw)]]]];
    try discriminate.
  - injection Hc as <-. destruct Hg as [Hg|[Hne Hnin]]; [congruence|].
    apply andb_false_iff in Em. destruct Em as [Em|Em].
    + destruct (monitoredGroups CONFIG); [contradiction | discriminate Em].
    + apply negb_false_iff, existsb_exists in Em. destruct Em as (g & Hin & Heq).
      apply jsstring_eqb_eq in Heq. subst g. contradiction.
  - injection Hb as <-. unfold trim_is_empty in Et. congruence.
Qed.

(** X15 on a message whose text is three spaces. *)
Lemma handleMessage_prefilters_witness :
  @handleMessage refHost C8_config C8_clients (Some (lit "bot@c.us")) blank_message 5
  = ([], 5).
Proof.
  apply (@handleMessage_prefilters refHost).
  right. right. right. right. exists (lit "   "). split; reflexivity.
Defined.

(** X16: the sender name handed to the classifier is never empty: it is the
    notify name when there is a non-empty one, otherwise the part of the
    author's (else the sender's) id before its first at-sign, which holds no
    at-sign, otherwise "Unknown". *)
Theorem senderNameOf_never_empty (message : Message) :
  senderNameOf message <> []
  /\ (nonEmpty (notifyName message) = true ->
      notifyName message = Some (senderNameOf message))
  /\ (nonEmpty (notifyName message) = false ->
      senderNameOf message = lit "Unknown"
      \/ exists id,
           (author message = Some id
            \/ nonEmpty (author message) = false /\ from message = Some id)
           /\ senderNameOf message = beforeAt id
           /\ ~ In 64%N (senderNameOf message)).
Proof.
  assert (forall id, ~ In 64%N (beforeAt id)) as Hat.
  { induction id as [|c id IH]; [intros []|]. cbn [beforeAt].
    destruct (N.eqb_spec c 64) as [->|Hne]; [intros []|].
    intros [Hc|Hin]; [congruence | contradiction]. }
  unfold senderNameOf.
  destruct (notifyName message) as [[|c n]|]; cbn [nonEmpty or_else];
    (split; [|split; [intros Hn; try discriminate Hn; try reflexivity
                     | intros Hn; try discriminate Hn]]);
    try discriminate;
    destruct (author message) as [[|a id]|]; cbn [or_else nonEmpty option_map];
    try (destruct (from message) as [[|a id]|]; cbn [or_else option_map]);
    try discriminate; try (now left);
    try (destruct (beforeAt (a :: id)) as [|b r] eqn:Eb; cbn [or_else];
         [first [discriminate | now left]
         | first [discriminate
                 | right; exists (a :: id); rewrite <- Eb;
                   repeat split; auto ]]).
Qed.

Lemma find_app_first {A : Type} (f : A -> bool) (before after : list A) (x : A) :
  (forall y, In y before -> f y = false) -> f x = true ->
  find f (before ++ x :: after) = Some x.
Proof.
  intros Hb Hx. induction before as [|y before IH]; cbn [app find].
  - now rewrite Hx.
  - rewrite (Hb y (or_introl eq_refl)). apply IH. intros z Hz. apply Hb. now right.
Qed.

(** X17: the admin check answers true exactly when the participant list can
    be read, the bot's own id is known, and the first participant carrying
    that id is an admin or a super admin; an unreadable list, an unknown id
    or a bot that is not a participant give false. *)
Theorem isBotAdmin_spec (botNumber : option jsstring) (chat : Chat) :
  isBotAdmin botNumber chat = true <->
  exists ps bot before p after,
    participants chat = Some ps
    /\ botNumber = Some bot
    /\ ps = before ++ p :: after
    /\ participantId p = bot
    /\ (forall q, In q before -> participantId q <> bot)
    /\ (isAdmin p = true \/ isSuperAdmin p = true).
Proof.
  unfold isBotAdmin. split.
  - destruct (participants chat) as [ps|]; [|discriminate].
    destruct botNumber as [bot|]; [|discriminate].
    destruct (find (fun p => jsstring_eqb (participantId p) bot) ps) as [p|] eqn:E;
      [|discriminate].
    intros Ha. destruct (find_first_split _ _ _ E) as (before & after & -> & Hp & Hb).
    exists (before ++ p :: after), bot, before, p, after.
    apply jsstring_eqb_eq in Hp. repeat split; auto.
    + intros q Hq Heq. apply jsstring_eqb_eq in Heq.
      rewrite (Hb q Hq) in Heq. discriminate.
    + rewrite orb_false_r in Ha. now apply orb_true_iff.
  - intros (ps & bot & before & p & after & -> & -> & -> & Hp & Hb & Ha).
    rewrite (find_app_first (fun p => jsstring_eqb (participantId p) bot)).
    + rewrite orb_false_r. now apply orb_true_iff.
    + intros q Hq. destruct (jsstring_eqb (participantId q) bot) eqn:E; [|reflexivity].
      apply jsstring_eqb_eq in E. now apply Hb in Hq.
    + now apply jsstring_eqb_eq.
Qed.

Lemma accepted_monitoring (CONFIG : Config) (message : Message) (chat : Chat)
    (text : jsstring) :
  accepted CONFIG message = Some (chat, text) ->
  isGroup chat = true /\ monitoring CONFIG chat = true.
Proof.
  unfold accepted, monitoring. destruct (getChat message) as [ch|]; [|discriminate].
  destruct (isGroup ch) eqn:Eg; [|discriminate]. cbn [negb].
  destruct (monitoredGroups CONFIG) as [|g gs] eqn:Em.
  - cbn [length Nat.ltb Nat.leb andb].
    destruct (fromMe message); [discriminate|].
    destruct (body message) as [[|c t]|]; try discriminate.
    destruct (trim_is_empty (c :: t)); [discriminate|].
    intros [= <- _]. now split.
  - cbn [length Nat.ltb Nat.leb Nat.eqb andb orb].
    destruct (existsb (jsstring_eqb (chatId ch)) (g :: gs)) eqn:Ee; [|discriminate].
    cbn [negb]. destruct (fromMe message); [discriminate|].
    destruct (body message) as [[|c t]|]; try discriminate.
    destruct (trim_is_empty (c :: t)); [discriminate|].
    intros [= <- _]. now split.
Qed.

(** X18: the monitoring mark of the start-up listing depends on the id of
    the group alone: a listed group carries it exactly when the messages of
    the chat with that id (not sent by the bot, with a text that is not
    blank) are classified.  A deletion is only requested in a chat whose id
    the listing marks as monitored and in which the admin check, made anew
    for the message, answers true; the admin mark of the listing agrees
    with that answer when the participants of the chat are those listed. *)
Theorem readyListing_tells_where_bot_acts `{JSHost} (CONFIG : Config)
    (clients : Clients) (botNumber : option jsstring) (chats : list Chat)
    (group chat : Chat) (message : Message) (text : jsstring) (checks : nat) :
  In group chats ->
  isGroup group = true ->
  getChat message = Some chat ->
  chatId chat = chatId group ->
  (isGroup chat = true -> fromMe message = false ->
   body message = Some text -> trim_is_empty text = false ->
   (accepted CONFIG message = Some (chat, text) <->
    In (true, isBotAdmin botNumber group, group)
       (readyListing CONFIG botNumber chats)))
  /\ (In DeleteForEveryone
         (fst (handleMessage CONFIG clients botNumber message checks)) ->
      In (true, isBotAdmin botNumber group, group)
         (readyListing CONFIG botNumber chats)
      /\ isBotAdmin botNumber chat = true
      /\ (participants chat = participants group ->
          In (true, true, group) (readyListing CONFIG botNumber chats))).
Proof.
  intros Hin Hgg Hc Hid.
  assert (forall mon adm,
            In (mon, adm, group) (readyListing CONFIG botNumber chats) <->
            mon = monitoring CONFIG group /\ adm = isBotAdmin botNumber group)
    as Hl.
  { intros mon adm. unfold readyListing. rewrite in_map_iff. split.
    - intros (g & [= <- <- ->] & Hg). tauto.
    - intros (-> & ->). exists group. split; [reflexivity|].
      apply filter_In. tauto. }
  assert (monitoring CONFIG chat = monitoring CONFIG group) as Hmon
    by (unfold monitoring; now rewrite Hid).
  split.
  - intros Hg Hf Hb Ht. rewrite Hl. split.
    + intros Ha. apply accepted_monitoring in Ha. destruct Ha as [_ Hm].
      rewrite <- Hmon, Hm. auto.
    + intros (Hm & _). rewrite <- Hmon in Hm.
      unfold accepted. rewrite Hc, Hg, Hf, Hb. cbn [negb].
      unfold monitoring in Hm.
      destruct (monitoredGroups CONFIG) as [|g gs].
      * cbn [length Nat.ltb Nat.leb andb].
        destruct text; [discriminate Ht | now rewrite Ht].
      * cbn [length Nat.eqb orb] in Hm. rewrite <- Hm.
        cbn [length Nat.ltb Nat.leb negb andb].
        destruct text; [discriminate Ht | now rewrite Ht].
  - unfold handleMessage.
    destruct (accepted CONFIG message) as [[chat' t]|] eqn:Ea; [|intros []].
    pose proof (accepted_getChat _ _ _ _ Ea) as Hc'. rewrite Hc in Hc'.
    injection Hc' as <-.
    apply accepted_monitoring in Ea. destruct Ea as [Hg Hm].
    destruct (isSpamMessage CONFIG clients t (senderNameOf message)
                (chatName chat) checks) as [v c].
    destruct (truthy (isSpam v)); [|intros []].
    destruct (spamLogThrows v); [intros []|].
    destruct (isBotAdmin botNumber chat) eqn:Eadm; cbn [negb fst];
      [|intros [Hd|[]]; discriminate Hd].
    intros _. split; [apply Hl; rewrite <- Hmon, Hm; auto|].
    split; [reflexivity|].
    intros Hp. apply Hl. split; [now rewrite <- Hmon, Hm|].
    rewrite <- Eadm. unfold isBotAdmin. now rewrite Hp.
Qed.

(** X18 on a monitored group in which the bot is a super admin. *)
Lemma readyListing_tells_where_bot_acts_witness :
  (isGroup sample_group = true -> fromMe sample_message = false ->
   body sample_message = Some C1_message -> trim_is_empty C1_message = false ->
   (accepted C1_config sample_message = Some (sample_group, C1_message) <->
    In (true, isBotAdmin (Some (lit "bot@c.us")) sample_group, sample_group)
       (readyListing C1_config (Some (lit "bot@c.us")) [sample_group])))
  /\ (In DeleteForEveryone
         (fst (@handleMessage refHost C1_config noClients (Some (lit "bot@c.us"))
                 sample_message 0)) ->
      In (true, isBotAdmin (Some (lit "bot@c.us")) sample_group, sample_group)
         (readyListing C1_config (Some (lit "bot@c.us")) [sample_group])
      /\ isBotAdmin (Some (lit "bot@c.us")) sample_group = true
      /\ (participants sample_group = participants sample_group ->
          In (true, true, sample_group)
             (readyListing C1_config (Some (lit "bot@c.us")) [sample_group]))).
Proof.
  apply (@readyListing_tells_where_bot_acts refHost C1_config noClients
           (Some (lit "bot@c.us")) [sample_group] sample_group sample_group
           sample_message C1_message 0).
  - left. reflexivity.
  - reflexivity.
  - reflexivity.
  - reflexivity.
Defined.

(** X19: dry run changes nothing but the deletion.  With the same inputs,
    the handler in dry-run mode leaves the counter where live mode leaves it
    and makes the requests of live mode less the deletion; it never requests
    a deletion. *)
Theorem dryRun_only_skips_deletion `{JSHost} (CONFIG : Config) (clients : Clients)
    (botNumber : option jsstring) (message : Message) (checks : nat) :
  let live := handleMessage (withDryRun false CONFIG) clients botNumber message checks in
  let dry := handleMessage (withDryRun true CONFIG) clients botNumber message checks in
  snd dry = snd live
  /\ fst dry = filter (fun a => negb (isDelete a)) (fst live)
  /\ ~ In DeleteForEveryone (fst dry).
Proof.
  intros live dry. subst live dry. unfold handleMessage.
  change (accepted (withDryRun true CONFIG) message) with (accepted CONFIG message).
  change (accepted (withDryRun false CONFIG) message) with (accepted CONFIG message).
  destruct (accepted CONFIG message) as [[chat text]|];
    [|cbn; repeat split; auto].
  change (isSpamMessage (withDryRun true CONFIG) clients text (senderNameOf message)
            (chatName chat) checks)
    with (isSpamMessage CONFIG clients text (senderNameOf message)
            (chatName chat) checks).
  change (isSpamMessage (withDryRun false CONFIG) clients text (senderNameOf message)
            (chatName chat) checks)
    with (isSpamMessage CONFIG clients text (senderNameOf message)
            (chatName chat) checks).
  destruct (isSpamMessage CONFIG clients text (senderNameOf message)
              (chatName chat) checks) as [v c].
  destruct (truthy (isSpam v)); destruct (spamLogThrows v);
    destruct (isBotAdmin botNumber chat);
    cbn [negb withDryRun dryRun fst snd filter isDelete In];
    (split; [reflexivity|]); (split; [reflexivity|]);
    intros Hin; repeat (destruct Hin as [Hin|Hin]; try discriminate Hin);
    contradiction.
Qed.

(** ** Runs of the event loop *)

Lemma isSpamMessage_counter_le `{JSHost} (CONFIG : Config) (clients : Clients)
    (message senderName groupName : jsstring) (checks : nat) :
  checks <= MAX_CHECKS_PER_MINUTE ->
  snd (isSpamMessage CONFIG clients message senderName groupName checks)
  <= MAX_CHECKS_PER_MINUTE.
Proof.
  intros Hc. unfold isSpamMessage.
  destruct (find _ (customSpamKeywords CONFIG)); [exact Hc|].
  destruct (truthy (isSpam (detectSpamGroupInvite message))); [exact Hc|].
  destruct (negb (useAI CONFIG) || _); [exact Hc|].
  unfold tryAdmit.
  destruct (Nat.leb_spec MAX_CHECKS_PER_MINUTE checks); cbn [snd]; lia.
Qed.

Lemma handleMessage_step `{JSHost} (CONFIG : Config) (clients : Clients)
    (botNumber : option jsstring) (message : Message) (checks : nat) :
  checks <= MAX_CHECKS_PER_MINUTE ->
  snd (handleMessage CONFIG clients botNumber message checks) <= MAX_CHECKS_PER_MINUTE
  /\ (fst (handleMessage CONFIG clients botNumber message checks) = []
      \/ fst (handleMessage CONFIG clients botNumber message checks) = [QueryAdmin]
      \/ fst (handleMessage CONFIG clients botNumber message checks)
         = [QueryAdmin; DeleteForEveryone]).
Proof.
  intros Hc. unfold handleMessage.
  destruct (accepted CONFIG message) as [[chat text]|]; [|cbn [fst snd]; auto].
  pose proof (isSpamMessage_counter_le CONFIG clients text (senderNameOf message)
                (chatName chat) checks Hc) as Hle.
  destruct (isSpamMessage CONFIG clients text (senderNameOf message)
              (chatName chat) checks) as [v c]. cbn [snd] in Hle.
  destruct (truthy (isSpam v)); destruct (spamLogThrows v);
    destruct (isBotAdmin botNumber chat);
    destruct (dryRun CONFIG); cbn [negb fst snd]; auto.
Qed.

Lemma run_invariants_from `{JSHost} (CONFIG : Config) (clients : Clients)
    (botNumber : option jsstring) (events : list Event) (checks : nat) :
  checks <= MAX_CHECKS_PER_MINUTE ->
  snd (run CONFIG clients botNumber events checks) <= MAX_CHECKS_PER_MINUTE
  /\ length (fst (run CONFIG clients botNumber events checks)) = incoming events
  /\ Forall (fun acts => acts = [] \/ acts = [QueryAdmin]
                         \/ acts = [QueryAdmin; DeleteForEveryone])
            (fst (run CONFIG clients botNumber events checks)).
Proof.
  revert checks. induction events as [|e events IH]; intros checks Hc.
  - cbn. auto.
  - destruct e as [message|]; cbn [run].
    + destruct (handleMessage_step CONFIG clients botNumber message checks Hc)
        as [Hle Hacts].
      destruct (handleMessage CONFIG clients botNumber message checks) as [acts c].
      cbn [fst snd] in *. destruct (IH c Hle) as (Hb & Hn & Hf).
      destruct (run CONFIG clients botNumber events c) as [more c'].
      cbn [fst snd] in *. repeat split; auto.
      unfold incoming in *. cbn [filter length]. now rewrite Hn.
    + apply (IH (resetWindow checks)). unfold resetWindow. lia.
Qed.

(** X20: over any run of incoming messages and timer ticks from start-up,
    the counter never exceeds 30, every message gets its own (possibly
    empty) list of requests, and that list is nothing, the admin query
    alone, or the admin query followed by one deletion. *)
Theorem run_invariants `{JSHost} (CONFIG : Config) (clients : Clients)
    (botNumber : option jsstring) (events : list Event) :
  snd (run CONFIG clients botNumber events 0) <= 30
  /\ length (fst (run CONFIG clients botNumber events 0)) = incoming events
  /\ Forall (fun acts => acts = [] \/ acts = [QueryAdmin]
                         \/ acts = [QueryAdmin; DeleteForEveryone])
            (fst (run CONFIG clients botNumber events 0)).
Proof.
  apply (run_invariants_from CONFIG clients botNumber events 0).
  unfold MAX_CHECKS_PER_MINUTE. lia.
Qed.

(** ** Replies whose fields have no primitive value *)

Example comparison_that_throws_is_a_parse_error :
  @parseReply refHost reply_confidence_object = parseError.
Proof. vm_compute. reflexivity. Qed.

Example log_that_throws_ends_the_handling :
  @isSpamMessage refHost C8_config
     (mkClients (Some (fun _ _ _ => Text reply_reason_object)) None)
     (lit "hello everyone") (lit "ann") (lit "Family") 0
  = (mkVerdict (JBool true) (num 90) (JObj [(lit "toString", num 1)]), 1)
  /\ @handleMessage refHost C8_config
       (mkClients (Some (fun _ _ _ => Text reply_reason_object)) None)
       (Some (lit "bot@c.us"))
       (mkMessage (Some sample_group) false (Some (lit "hello everyone"))
                  (Some (lit "ann@c.us")) None None)
       0
     = ([], 1).
Proof. split; vm_compute; reflexivity. Qed.
